(** * LRNG fast entropy source: Jitter RNG (lrng_es_jent.c)

    A shallow embedding of the buffering, slot state machine and entropy
    accounting of [lrng_es_jent.c], with the properties of its consumer
    path, its asynchronous filler, its runtime toggle and its
    initialisation.

    Every C function of the file is one definition of the same name.  The
    module-level statics of the C file are the fields of [state]; a call
    takes the state and returns the new one.  Atomic operations are
    executed in one step each, so a definition describes one uninterrupted
    run of its function.  The embedding is the one of a build with
    [CONFIG_LRNG_JENT_ENTROPY_BLOCKS != 0], [CONFIG_SYSFS] and
    [CONFIG_LRNG_RUNTIME_ES_CONFIG]. *)

From Stdlib Require Import Ascii String.
From stdpp Require Import base numbers list strings.

Open Scope Z_scope.

(** ** What the file takes from the kernel and from the LRNG headers

    None of these is defined in [lrng_es_jent.c]: configuration constants,
    macros of [lrng_definitions.h], helpers of [lrng_es_mgr.h], and kernel
    services.  They are the fields of one environment.

    [jitterentropy_rng n dlen] is the answer of the Jitter RNG (the
    "jitterentropy_rng" of the kernel crypto API) to its [n]-th request
    (counted from 0), for [dlen] bytes: the return code and the bytes
    generated.  [kstrtobool s] is the return code and the parsed
    boolean. *)
Class kernel_env := {
  CONFIG_LRNG_JENT_ENTROPY_RATE : Z;
  CONFIG_LRNG_JENT_ENTROPY_BLOCKS : Z;
  LRNG_DRNG_INIT_SEED_SIZE_BYTES : Z;
  LRNG_DRNG_SECURITY_STRENGTH_BITS : Z;
  lrng_security_strength : Z;
  lrng_get_seed_entropy_osr : bool -> Z;
  lrng_fast_noise_entropylevel : Z -> Z -> Z;
  fips_enabled : bool;
  jitterentropy_rng : nat -> Z -> Z * list Z;
  kstrtobool : string -> Z * bool
}.

(** ** Data *)

(** [struct jent_entropy_es]: one buffer and its credited bits. *)
Record jent_entropy_es := {
  e : list Z;
  e_bits : Z
}.

#[global] Instance jent_entropy_es_inhabited : Inhabited jent_entropy_es :=
  populate {| e := []; e_bits := 0 |}.

(** [enum lrng_jent_async_state], in the order of the C enumeration:
    [buffer_empty] is 0. *)
Inductive lrng_jent_async_state :=
| buffer_empty
| buffer_filling
| buffer_filled
| buffer_reading.

#[global] Instance lrng_jent_async_state_eq_dec : EqDecision lrng_jent_async_state.
Proof. solve_decision. Defined.

#[global] Instance lrng_jent_async_state_inhabited : Inhabited lrng_jent_async_state :=
  populate buffer_empty.

(** The Jitter RNG column of [struct entropy_buf]:
    [eb->e[lrng_ext_es_jitter]] and [eb->e_bits[lrng_ext_es_jitter]]. *)
Record entropy_buf := {
  eb_e : list Z;
  eb_e_bits : Z
}.

(** What the functions do to the rest of the kernel, in the order they do
    it. *)
Inductive event :=
| ev_crypto_rng_get_bytes (dlen : Z)
| ev_schedule_work
| ev_schedule
| ev_lrng_force_fully_seeded.

#[global] Instance event_eq_dec : EqDecision event.
Proof. solve_decision. Defined.

(** The outcome of [crypto_alloc_rng]: a handle or an [ERR_PTR]. *)
Inductive crypto_rng_ptr :=
| rng_handle
| rng_ERR_PTR (err : Z).

(** The statics of the file.  [idx] is the function-local static cursor of
    [lrng_jent_async_get]; [jent_calls] counts the requests made to the
    Jitter RNG so far and [trace] records the events. *)
Record state := {
  jent_entropy : Z;
  lrng_jent_initialized : bool;
  lrng_jent_async : list jent_entropy_es;
  lrng_jent_async_set : list lrng_jent_async_state;
  lrng_es_jent_async_enabled : bool;
  idx : Z;
  jent_calls : nat;
  trace : list event
}.

Definition set_jent_entropy (st : state) (v : Z) : state :=
  {| jent_entropy := v;
     lrng_jent_initialized := lrng_jent_initialized st;
     lrng_jent_async := lrng_jent_async st;
     lrng_jent_async_set := lrng_jent_async_set st;
     lrng_es_jent_async_enabled := lrng_es_jent_async_enabled st;
     idx := idx st;
     jent_calls := jent_calls st;
     trace := trace st |}.

Definition set_lrng_jent_initialized (st : state) (v : bool) : state :=
  {| jent_entropy := jent_entropy st;
     lrng_jent_initialized := v;
     lrng_jent_async := lrng_jent_async st;
     lrng_jent_async_set := lrng_jent_async_set st;
     lrng_es_jent_async_enabled := lrng_es_jent_async_enabled st;
     idx := idx st;
     jent_calls := jent_calls st;
     trace := trace st |}.

Definition set_lrng_jent_async (st : state) (v : list jent_entropy_es) : state :=
  {| jent_entropy := jent_entropy st;
     lrng_jent_initialized := lrng_jent_initialized st;
     lrng_jent_async := v;
     lrng_jent_async_set := lrng_jent_async_set st;
     lrng_es_jent_async_enabled := lrng_es_jent_async_enabled st;
     idx := idx st;
     jent_calls := jent_calls st;
     trace := trace st |}.

Definition set_lrng_jent_async_set (st : state) (v : list lrng_jent_async_state) : state :=
  {| jent_entropy := jent_entropy st;
     lrng_jent_initialized := lrng_jent_initialized st;
     lrng_jent_async := lrng_jent_async st;
     lrng_jent_async_set := v;
     lrng_es_jent_async_enabled := lrng_es_jent_async_enabled st;
     idx := idx st;
     jent_calls := jent_calls st;
     trace := trace st |}.

Definition set_lrng_es_jent_async_enabled (st : state) (v : bool) : state :=
  {| jent_entropy := jent_entropy st;
     lrng_jent_initialized := lrng_jent_initialized st;
     lrng_jent_async := lrng_jent_async st;
     lrng_jent_async_set := lrng_jent_async_set st;
     lrng_es_jent_async_enabled := v;
     idx := idx st;
     jent_calls := jent_calls st;
     trace := trace st |}.

Definition set_idx (st : state) (v : Z) : state :=
  {| jent_entropy := jent_entropy st;
     lrng_jent_initialized := lrng_jent_initialized st;
     lrng_jent_async := lrng_jent_async st;
     lrng_jent_async_set := lrng_jent_async_set st;
     lrng_es_jent_async_enabled := lrng_es_jent_async_enabled st;
     idx := v;
     jent_calls := jent_calls st;
     trace := trace st |}.

(** One more event, and one more request counted when the event is a
    request to the Jitter RNG. *)
Definition emit (st : state) (ev : event) : state :=
  {| jent_entropy := jent_entropy st;
     lrng_jent_initialized := lrng_jent_initialized st;
     lrng_jent_async := lrng_jent_async st;
     lrng_jent_async_set := lrng_jent_async_set st;
     lrng_es_jent_async_enabled := lrng_es_jent_async_enabled st;
     idx := idx st;
     jent_calls :=
       match ev with
       | ev_crypto_rng_get_bytes _ => S (jent_calls st)
       | _ => jent_calls st
       end;
     trace := trace st ++ [ev] |}.

(** ** Machine integers and memory primitives *)

(** A C [int] after an overflowing operation (the kernel's atomics wrap). *)
Definition int_wrap (x : Z) : Z := (x + 2 ^ 31) `mod` 2 ^ 32 - 2 ^ 31.

(** The cast [(unsigned int)]. *)
Definition unsigned_int (x : Z) : Z := x `mod` 2 ^ 32.

Definition atomic_inc_return (v : Z) : Z := int_wrap (v + 1).

(** [atomic_cmpxchg(&v[i], old, new)]: the value found, and the array
    after the exchange. *)
Definition atomic_cmpxchg (v : list lrng_jent_async_state) (i : nat)
    (old new : lrng_jent_async_state)
  : lrng_jent_async_state * list lrng_jent_async_state :=
  let cur := v !!! i in
  (cur, if decide (cur = old) then <[i:=new]> v else v).

(** [memcpy(dst, src, n)] on a destination of at least [n] bytes. *)
Definition memcpy (dst src : list Z) (n : Z) : list Z :=
  take (Z.to_nat n) src ++ drop (Z.to_nat n) dst.

Section Model.
Context `{kernel_env}.

Definition LRNG_JENT_ENTROPY_BLOCKS_MASK : Z := CONFIG_LRNG_JENT_ENTROPY_BLOCKS - 1.

(** A [struct jent_entropy_es] after [memzero_explicit]. *)
Definition jent_entropy_es_zero : jent_entropy_es :=
  {| e := replicate (Z.to_nat LRNG_DRNG_INIT_SEED_SIZE_BYTES) 0; e_bits := 0 |}.

Definition lrng_jent_entropylevel (st : state) (requested_bits : Z) : Z :=
  lrng_fast_noise_entropylevel
    (if lrng_jent_initialized st then jent_entropy st else 0) requested_bits.

Definition lrng_jent_poolsize (st : state) : Z :=
  lrng_jent_entropylevel st lrng_security_strength.

(** Modelled from the spec: [crypto_rng_get_bytes(jent, e, dlen)] belongs
    to the kernel crypto API and is not part of the file.  The NoiseSource,
    "given a byte count, returns that many raw bytes or fails": the [n]-th
    request returns its code and leaves in [e] the bytes generated when
    the code is 0, and [e] as it was when the request fails. *)
Definition crypto_rng_get_bytes (e : list Z) (n : nat) (dlen : Z) : Z * list Z :=
  let '(ret, data) := jitterentropy_rng n dlen in
  (ret, if ret =? 0 then memcpy e data dlen else e).

(** [__lrng_jent_get(e, e_bits, requested_bits)]: the buffer and the
    credited bits after the call, and the new state.  [*e_bits] is written
    on every path, so its old value is no input. *)
Definition __lrng_jent_get (e : list Z) (requested_bits : Z) (st : state)
  : list Z * Z * state :=
  let ent_bits := lrng_jent_entropylevel st requested_bits in
  if negb (lrng_jent_initialized st) then (e, 0, st)
  else
    let '(ret, e) :=
      crypto_rng_get_bytes e (jent_calls st) (Z.shiftr requested_bits 3) in
    let st := emit st (ev_crypto_rng_get_bytes (Z.shiftr requested_bits 3)) in
    if negb (ret =? 0) then (e, 0, st)
    else (e, ent_bits, st).

Definition lrng_jent_get (eb : entropy_buf) (requested_bits : Z) (st : state)
  : entropy_buf * state :=
  let '(e', bits', st) := __lrng_jent_get (eb_e eb) requested_bits st in
  ({| eb_e := e'; eb_e_bits := bits' |}, st).

(** One iteration of the loop of [lrng_jent_async_monitor], for slot [i]. *)
Definition lrng_jent_async_monitor_slot (requested_bits : Z) (st : state) (i : nat)
  : state :=
  let '(old, set') :=
    atomic_cmpxchg (lrng_jent_async_set st) i buffer_empty buffer_filling in
  if decide (old <> buffer_empty) then st
  else
    let st := set_lrng_jent_async_set st set' in
    let '(e', bits', st) :=
      __lrng_jent_get (e (lrng_jent_async st !!! i)) requested_bits st in
    let st :=
      set_lrng_jent_async st
        (<[i := {| e := e'; e_bits := bits' |}]> (lrng_jent_async st)) in
    let st :=
      set_lrng_jent_async_set st (<[i := buffer_filled]> (lrng_jent_async_set st)) in
    emit st ev_schedule.

Definition lrng_jent_async_monitor (st : state) : state :=
  let requested_bits := lrng_get_seed_entropy_osr true in
  foldl (lrng_jent_async_monitor_slot requested_bits) st
        (seq 0 (Z.to_nat CONFIG_LRNG_JENT_ENTROPY_BLOCKS)).

Definition lrng_jent_async_monitor_schedule (st : state) : state :=
  if lrng_es_jent_async_enabled st then emit st ev_schedule_work else st.

Definition lrng_jent_async_fini (st : state) : state :=
  set_lrng_jent_async st
    (replicate (Z.to_nat CONFIG_LRNG_JENT_ENTROPY_BLOCKS) jent_entropy_es_zero).

Definition lrng_jent_async_get (eb : entropy_buf) (requested_bits : Z) (st : state)
  : entropy_buf * state :=
  if negb (lrng_jent_initialized st) then
    ({| eb_e := eb_e eb; eb_e_bits := 0 |}, st)
  else
    let i := atomic_inc_return (idx st) in
    let st := set_idx st i in
    let slot := Z.land (unsigned_int i) LRNG_JENT_ENTROPY_BLOCKS_MASK in
    let '(old, set') :=
      atomic_cmpxchg (lrng_jent_async_set st) (Z.to_nat slot)
                     buffer_filled buffer_reading in
    let st := set_lrng_jent_async_set st set' in
    if decide (old <> buffer_filled) then
      let '(eb, st) := lrng_jent_get eb requested_bits st in
      (eb, lrng_jent_async_monitor_schedule st)
    else
      let es := lrng_jent_async st !!! Z.to_nat slot in
      let eb :=
        {| eb_e := memcpy (eb_e eb) (e es) LRNG_DRNG_INIT_SEED_SIZE_BYTES;
           eb_e_bits := e_bits es |} in
      let st :=
        set_lrng_jent_async st
          (<[Z.to_nat slot := jent_entropy_es_zero]> (lrng_jent_async st)) in
      let st :=
        set_lrng_jent_async_set st
          (<[Z.to_nat slot := buffer_empty]> (lrng_jent_async_set st)) in
      if (slot `mod` (CONFIG_LRNG_JENT_ENTROPY_BLOCKS / 4) =? 0) && negb (slot =? 0)
      then (eb, lrng_jent_async_monitor_schedule st)
      else (eb, st).

Definition lrng_jent_get_check (eb : entropy_buf) (requested_bits : Z) (st : state)
  : entropy_buf * state :=
  if lrng_es_jent_async_enabled st
     && (requested_bits =? lrng_get_seed_entropy_osr true)
  then lrng_jent_async_get eb requested_bits st
  else lrng_jent_get eb requested_bits st.

Definition lrng_jent_async_init (st : state) : state :=
  if negb (lrng_es_jent_async_enabled st) then st
  else
    set_lrng_jent_async_set st
      (foldl (fun v i => <[i := buffer_empty]> v) (lrng_jent_async_set st)
             (seq 0 (Z.to_nat CONFIG_LRNG_JENT_ENTROPY_BLOCKS))).

(** [INIT_WORK] only binds the work item to [lrng_jent_async_monitor]. *)
Definition lrng_jent_async_init_complete (st : state) : state :=
  lrng_jent_async_init st.

(** [lrng_jent_async_sysfs_set(val, kp)]: the return code and the new
    state; [None] is the null pointer. *)
Definition lrng_jent_async_sysfs_set (val : option string) (st : state)
  : Z * state :=
  let val_dflt := "1"%string in
  let val := match val with None => val_dflt | Some v => v end in
  let '(ret, setting) := kstrtobool val in
  if negb (ret =? 0) then (ret, st)
  else if setting then
    if negb (lrng_es_jent_async_enabled st) then
      let st := set_lrng_es_jent_async_enabled st true in
      let st := lrng_jent_async_init st in
      (0, lrng_jent_async_monitor_schedule st)
    else (0, st)
  else
    if lrng_es_jent_async_enabled st then
      let st := set_lrng_es_jent_async_enabled st false in
      (0, lrng_jent_async_fini st)
    else (0, st).

(** [lrng_jent_initialize()], given what [crypto_alloc_rng] returned. *)
Definition lrng_jent_initialize (jent : crypto_rng_ptr) (st : state) : Z * state :=
  match jent with
  | rng_ERR_PTR err => (err, st)
  | rng_handle =>
      let st := lrng_jent_async_init_complete st in
      let st := set_lrng_jent_initialized st true in
      let st :=
        if fips_enabled && (CONFIG_LRNG_JENT_ENTROPY_RATE >? 0)
           && (jent_entropy st =? CONFIG_LRNG_JENT_ENTROPY_RATE)
        then set_jent_entropy st LRNG_DRNG_SECURITY_STRENGTH_BITS
        else st in
      let st :=
        if negb (jent_entropy st =? 0) then emit st ev_lrng_force_fully_seeded
        else st in
      (0, st)
  end.

(** The statics as the C file initialises them. *)
Definition boot_state : state :=
  {| jent_entropy := CONFIG_LRNG_JENT_ENTROPY_RATE;
     lrng_jent_initialized := false;
     lrng_jent_async :=
       replicate (Z.to_nat CONFIG_LRNG_JENT_ENTROPY_BLOCKS) jent_entropy_es_zero;
     lrng_jent_async_set :=
       replicate (Z.to_nat CONFIG_LRNG_JENT_ENTROPY_BLOCKS) buffer_empty;
     lrng_es_jent_async_enabled := true;
     idx := -1;
     jent_calls := 0;
     trace := [] |}.

End Model.

(** ** Runs of several calls *)

Section Runs.
Context `{kernel_env}.

(** The state in which the loop of [lrng_jent_async_monitor] reaches slot
    [i]: the iterations for the slots below [i] are done. *)
Definition lrng_jent_async_monitor_upto (i : nat) (st : state) : state :=
  foldl (lrng_jent_async_monitor_slot (lrng_get_seed_entropy_osr true)) st (seq 0 i).

(** Consecutive calls of [lrng_jent_async_get], one per caller buffer of
    [ebs], with nothing else running in between: the buffers handed back,
    in call order, and the final state. *)
Fixpoint pool_calls (ebs : list entropy_buf) (requested_bits : Z) (st : state)
  : list entropy_buf * state :=
  match ebs with
  | [] => ([], st)
  | eb :: ebs' =>
      let '(eb', st') := lrng_jent_async_get eb requested_bits st in
      let '(outs, st'') := pool_calls ebs' requested_bits st' in
      (eb' :: outs, st'')
  end.

(** The slot that the [j]-th next call of [lrng_jent_async_get] is
    assigned ([j] counted from 0), as the function computes it. *)
Definition candidate_slot (st : state) (j : nat) : Z :=
  Z.land (unsigned_int (Nat.iter (S j) atomic_inc_return (idx st)))
         LRNG_JENT_ENTROPY_BLOCKS_MASK.

End Runs.


(** ** Conditions on the pool *)

Section Pool.
Context `{kernel_env}.

(** The number of slots of a state array that are [buffer_empty]. *)
Definition count_empty (v : list lrng_jent_async_state) : nat :=
  length (filter (λ s, s = buffer_empty) v).

(** No slot is in one of the two states that a running call holds it in. *)
Definition settled (st : state) : Prop :=
  ∀ i s, lrng_jent_async_set st !! i = Some s →
         s = buffer_empty ∨ s = buffer_filled.

(** A slot that is not [buffer_filled] holds the all-zero structure. *)
Definition wiped_unless_filled (st : state) : Prop :=
  ∀ i s es,
    lrng_jent_async_set st !! i = Some s →
    lrng_jent_async st !! i = Some es →
    s ≠ buffer_filled → es = jent_entropy_es_zero.

End Pool.

(** ** A sample configuration

    The defaults of the LRNG: 16 bits of entropy credited per 256 data
    bits, 32 buffer slots of 48 bytes, a security strength of 256 bits.
    The Jitter RNG of the sample fails exactly at the requests selected by
    [fails] and otherwise delivers [dlen] bytes that depend on the request
    number. *)

Definition sample_kstrtobool (s : string) : Z * bool :=
  match s with
  | String "1"%char _ | String "y"%char _ | String "Y"%char _ => (0, true)
  | String "0"%char _ | String "n"%char _ | String "N"%char _ => (0, false)
  | _ => (-22, false)
  end.

Definition sample_env (fips : bool) (fails : nat -> bool) : kernel_env :=
  {| CONFIG_LRNG_JENT_ENTROPY_RATE := 16;
     CONFIG_LRNG_JENT_ENTROPY_BLOCKS := 32;
     LRNG_DRNG_INIT_SEED_SIZE_BYTES := 48;
     LRNG_DRNG_SECURITY_STRENGTH_BITS := 256;
     lrng_security_strength := 256;
     lrng_get_seed_entropy_osr := fun fully_seeded =>
       if fully_seeded then 256 else 384;
     lrng_fast_noise_entropylevel := fun ent_bits requested_bits =>
       Z.min (ent_bits * requested_bits / 256) requested_bits;
     fips_enabled := fips;
     jitterentropy_rng := fun n dlen =>
       if fails n then (-14, [])
       else (0, replicate (Z.to_nat dlen) (Z.of_nat n + 1));
     kstrtobool := sample_kstrtobool |}.

Definition never : nat -> bool := fun _ => false.
Definition always : nat -> bool := fun _ => true.

Definition sample_healthy : kernel_env := sample_env false never.
Definition sample_broken : kernel_env := sample_env false always.
Definition sample_flaky : kernel_env := sample_env false (fun n => Nat.eqb n 2).
Definition sample_fips : kernel_env := sample_env true never.

(** A caller buffer of 48 bytes, holding 170 in every byte. *)
Definition sample_eb : entropy_buf :=
  {| eb_e := replicate 48%nat 170; eb_e_bits := 7 |}.

(** After a successful [lrng_jent_initialize]: every slot empty. *)
Definition sample_ready (env : kernel_env) : state :=
  (@lrng_jent_initialize env rng_handle (@boot_state env)).2.

(** ... and after one pass of the filler. *)
Definition sample_filled (env : kernel_env) : state :=
  @lrng_jent_async_monitor env (sample_ready env).

(** ... and after eight drains of the filled pool: slot 8 is next. *)
Definition sample_drained8 : state :=
  (@pool_calls sample_healthy (replicate 8%nat sample_eb) 256
     (sample_filled sample_healthy)).2.

(** The filled pool after the toggle has been switched off. *)
Definition sample_disabled : state :=
  (@lrng_jent_async_sysfs_set sample_healthy (Some "0"%string)
     (sample_filled sample_healthy)).2.

(** When [crypto_alloc_rng] found no Jitter RNG. *)
Definition sample_uninitialized : state :=
  (@lrng_jent_initialize sample_healthy (rng_ERR_PTR (-2))
     (@boot_state sample_healthy)).2.

(** * Properties *)

Section Properties.
Context `{kernel_env}.

(** ** The direct path *)

(** Case analysis along the three exits of [__lrng_jent_get]. *)
Ltac jent_get_cases st rb :=
  unfold lrng_jent_get, __lrng_jent_get, crypto_rng_get_bytes;
  destruct (lrng_jent_initialized st) eqn:?; simpl;
  [ destruct (jitterentropy_rng (jent_calls st) (rb ≫ 3)) as [? ?] eqn:?;
    simpl; destruct (_ =? 0) eqn:?; simpl | ].

(** The direct path writes neither the slots, their states, the cursor,
    the flags nor the rate. *)
Lemma lrng_jent_get_frame (eb : entropy_buf) (rb : Z) (st : state) :
  let st' := (lrng_jent_get eb rb st).2 in
  lrng_jent_async st' = lrng_jent_async st
  ∧ lrng_jent_async_set st' = lrng_jent_async_set st
  ∧ idx st' = idx st
  ∧ lrng_jent_initialized st' = lrng_jent_initialized st
  ∧ lrng_es_jent_async_enabled st' = lrng_es_jent_async_enabled st
  ∧ jent_entropy st' = jent_entropy st.
Proof. jent_get_cases st rb; auto 10. Qed.

(** The direct path reads the state only through the initialised flag,
    the rate and the request counter: the cursor is no input. *)
Lemma lrng_jent_get_set_idx (eb : entropy_buf) (rb c : Z) (st : state) :
  lrng_jent_get eb rb (set_idx st c)
  = ((lrng_jent_get eb rb st).1, set_idx (lrng_jent_get eb rb st).2 c).
Proof.
  unfold lrng_jent_get, __lrng_jent_get, crypto_rng_get_bytes,
    lrng_jent_entropylevel; simpl.
  destruct (lrng_jent_initialized st); simpl; [|reflexivity].
  destruct (jitterentropy_rng (jent_calls st) (rb ≫ 3)) as [ret data].
  destruct (ret =? 0); reflexivity.
Qed.

(** The error branch of [__lrng_jent_get]. *)
Lemma lrng_jent_get_error (e0 : list Z) (rb : Z) (st : state) :
  lrng_jent_initialized st = false
  ∨ (jitterentropy_rng (jent_calls st) (rb ≫ 3)).1 ≠ 0 →
  (__lrng_jent_get e0 rb st).1 = (e0, 0).
Proof.
  intros Herr. jent_get_cases st rb; auto.
  destruct Herr as [Hi | Hret]; [discriminate|].
  simpl in *. lia.
Qed.

(** C9. A direct fetch that ends in the error branch (the subsystem is
    not initialised, or the Jitter RNG returns non-zero) writes 0 to the
    credited bits and leaves every byte of the caller's buffer as it was;
    this holds for [__lrng_jent_get] and for its wrapper [lrng_jent_get]. *)
Theorem C9_error_branch_keeps_buffer (eb : entropy_buf) (rb : Z) (st : state) :
  lrng_jent_initialized st = false
  ∨ (jitterentropy_rng (jent_calls st) (rb ≫ 3)).1 ≠ 0 →
  (__lrng_jent_get (eb_e eb) rb st).1 = (eb_e eb, 0)
  ∧ eb_e (lrng_jent_get eb rb st).1 = eb_e eb
  ∧ eb_e_bits (lrng_jent_get eb rb st).1 = 0.
Proof.
  intros Herr.
  pose proof (lrng_jent_get_error (eb_e eb) rb st Herr) as Hg.
  split; [assumption|].
  unfold lrng_jent_get.
  destruct (__lrng_jent_get (eb_e eb) rb st) as [[e' bits'] st'].
  simpl in *. by inversion Hg.
Qed.

(** C5. While the subsystem is not initialised, a get-entropy call hands
    back 0 credited bits and the state it found: no request reaches the
    Jitter RNG (the request counter and the trace of the state are the old
    ones).  This holds for the dispatching entry point and for each of the
    two paths. *)
Theorem C5_uninitialized_zero_bits (eb : entropy_buf) (rb : Z) (st : state) :
  lrng_jent_initialized st = false →
  let zero := {| eb_e := eb_e eb; eb_e_bits := 0 |} in
  lrng_jent_get_check eb rb st = (zero, st)
  ∧ lrng_jent_async_get eb rb st = (zero, st)
  ∧ lrng_jent_get eb rb st = (zero, st).
Proof.
  intros Hi zero.
  assert (Ha : lrng_jent_async_get eb rb st = (zero, st)).
  { unfold lrng_jent_async_get. rewrite Hi. reflexivity. }
  assert (Hd : lrng_jent_get eb rb st = (zero, st)).
  { unfold lrng_jent_get, __lrng_jent_get. rewrite Hi. reflexivity. }
  split; [|split]; try assumption.
  unfold lrng_jent_get_check.
  destruct (_ && _); assumption.
Qed.

(** ** The choice of the path *)

Lemma lrng_jent_get_check_pool (eb : entropy_buf) (rb : Z) (st : state) :
  lrng_es_jent_async_enabled st = true →
  rb = lrng_get_seed_entropy_osr true →
  lrng_jent_get_check eb rb st = lrng_jent_async_get eb rb st.
Proof.
  intros He Hrb. unfold lrng_jent_get_check.
  rewrite He. subst rb. rewrite Z.eqb_refl. reflexivity.
Qed.

(** C3. [lrng_jent_get_check] takes the pool path when the async flag is
    set and the request has the standard oversampled size, and the direct
    path in every other case; on the direct path the slots, their states
    and the cursor are the ones found. *)
Theorem C3_path_choice (eb : entropy_buf) (rb : Z) (st : state) :
  (lrng_es_jent_async_enabled st = true ∧ rb = lrng_get_seed_entropy_osr true →
   lrng_jent_get_check eb rb st = lrng_jent_async_get eb rb st)
  ∧ (lrng_es_jent_async_enabled st = false ∨ rb ≠ lrng_get_seed_entropy_osr true →
     lrng_jent_get_check eb rb st = lrng_jent_get eb rb st
     ∧ lrng_jent_async (lrng_jent_get_check eb rb st).2 = lrng_jent_async st
     ∧ lrng_jent_async_set (lrng_jent_get_check eb rb st).2 = lrng_jent_async_set st
     ∧ idx (lrng_jent_get_check eb rb st).2 = idx st).
Proof.
  split.
  - intros [He Hrb]. by apply lrng_jent_get_check_pool.
  - intros Hno.
    assert (Hd : lrng_jent_get_check eb rb st = lrng_jent_get eb rb st).
    { unfold lrng_jent_get_check. destruct Hno as [He | Hrb].
      - rewrite He. reflexivity.
      - apply Z.eqb_neq in Hrb. rewrite Hrb, andb_false_r. reflexivity. }
    rewrite Hd. split; [reflexivity|].
    pose proof (lrng_jent_get_frame eb rb st) as Hf. simpl in Hf.
    tauto.
Qed.

(** ** Initialisation *)

(** C6. When [crypto_alloc_rng] delivers the Jitter RNG,
    [lrng_jent_initialize] sets the rate to
    [LRNG_DRNG_SECURITY_STRENGTH_BITS] if FIPS mode is on, the compiled-in
    default is above zero and the rate still is that default; under any
    other combination the rate is the one found.  When no Jitter RNG is
    delivered the function returns the error and the rate is the one
    found, too. *)
Theorem C6_fips_rate_override (st : state) :
  let cond :=
    fips_enabled = true ∧ 0 < CONFIG_LRNG_JENT_ENTROPY_RATE
    ∧ jent_entropy st = CONFIG_LRNG_JENT_ENTROPY_RATE in
  (cond →
   jent_entropy (lrng_jent_initialize rng_handle st).2
   = LRNG_DRNG_SECURITY_STRENGTH_BITS)
  ∧ (¬ cond →
     jent_entropy (lrng_jent_initialize rng_handle st).2 = jent_entropy st)
  ∧ (∀ err, jent_entropy (lrng_jent_initialize (rng_ERR_PTR err) st).2
            = jent_entropy st).
Proof.
  intros cond. subst cond.
  assert (Hrate : ∀ st0 : state,
            jent_entropy (if negb (jent_entropy st0 =? 0)
                          then emit st0 ev_lrng_force_fully_seeded else st0)
            = jent_entropy st0).
  { intros st0. destruct (negb _); reflexivity. }
  assert (Hinit : jent_entropy
            (set_lrng_jent_initialized (lrng_jent_async_init_complete st) true)
          = jent_entropy st).
  { unfold lrng_jent_async_init_complete, lrng_jent_async_init.
    destruct (lrng_es_jent_async_enabled st); reflexivity. }
  split; [|split].
  - intros (Hf & Hpos & Hr). unfold lrng_jent_initialize.
    cbv zeta. cbn [snd]. rewrite Hrate, Hinit, Hf, Hr, Z.eqb_refl.
    apply Z.gtb_lt in Hpos. rewrite Hpos. reflexivity.
  - intros Hn. unfold lrng_jent_initialize.
    cbv zeta. cbn [snd]. rewrite Hrate, Hinit.
    destruct (fips_enabled && (CONFIG_LRNG_JENT_ENTROPY_RATE >? 0)
              && (jent_entropy st =? CONFIG_LRNG_JENT_ENTROPY_RATE)) eqn:Hc.
    + exfalso. apply Hn.
      apply andb_true_iff in Hc as [Hc Hr].
      apply andb_true_iff in Hc as [Hf Hpos].
      apply Z.eqb_eq in Hr. apply Z.gtb_lt in Hpos. auto.
    + apply Hinit.
  - intros err. reflexivity.
Qed.

(** ** The pool path *)

(** [lrng_jent_async_get] on a slot that is not filled: the exchange
    fails and leaves the states alone. *)
Lemma lrng_jent_async_get_exhausted (eb : entropy_buf) (rb : Z) (st : state) :
  lrng_jent_initialized st = true →
  lrng_jent_async_set st !!! Z.to_nat (candidate_slot st 0) ≠ buffer_filled →
  lrng_jent_async_get eb rb st
  = ((lrng_jent_get eb rb st).1,
     lrng_jent_async_monitor_schedule
       (set_idx (lrng_jent_get eb rb st).2 (atomic_inc_return (idx st)))).
Proof.
  intros Hi Hs. unfold candidate_slot in Hs. simpl in Hs.
  unfold lrng_jent_async_get, atomic_cmpxchg. rewrite Hi. simpl.
  destruct (decide (_ <> buffer_filled)) as [_ | Hn]; [|contradiction].
  destruct (decide (_ = buffer_filled)) as [Heq | _]; [contradiction|].
  replace (set_lrng_jent_async_set (set_idx st (atomic_inc_return (idx st)))
             (lrng_jent_async_set st))
    with (set_idx st (atomic_inc_return (idx st))) by (destruct st; reflexivity).
  rewrite lrng_jent_get_set_idx. reflexivity.
Qed.

(** C7, as the code has it. A pool-path call (async flag set, standard
    request size) made while the subsystem is initialised and whose
    candidate slot is not [buffer_filled] hands back
    what the direct path yields for the request, and its only other effects
    are the advance of the cursor and one [schedule_work] for the filler,
    after the events of the direct path; slots and states are the ones
    found.  [lrng_jent_get_check] has no error result. *)
Theorem C7_exhausted_slot_falls_back (eb : entropy_buf) (rb : Z) (st : state) :
  lrng_es_jent_async_enabled st = true →
  rb = lrng_get_seed_entropy_osr true →
  lrng_jent_initialized st = true →
  lrng_jent_async_set st !!! Z.to_nat (candidate_slot st 0) ≠ buffer_filled →
  (lrng_jent_get_check eb rb st).1 = (lrng_jent_get eb rb st).1
  ∧ trace (lrng_jent_get_check eb rb st).2
    = trace (lrng_jent_get eb rb st).2 ++ [ev_schedule_work]
  ∧ lrng_jent_async (lrng_jent_get_check eb rb st).2 = lrng_jent_async st
  ∧ lrng_jent_async_set (lrng_jent_get_check eb rb st).2 = lrng_jent_async_set st
  ∧ idx (lrng_jent_get_check eb rb st).2 = atomic_inc_return (idx st).
Proof.
  intros He Hrb Hi Hs.
  rewrite (lrng_jent_get_check_pool eb rb st He Hrb),
    (lrng_jent_async_get_exhausted eb rb st Hi Hs).
  pose proof (lrng_jent_get_frame eb rb st) as Hf. simpl in Hf.
  destruct Hf as (Ha & Hset & _ & _ & Hen & _).
  unfold lrng_jent_async_monitor_schedule. simpl.
  rewrite Hen, He. simpl. auto.
Qed.

(** [lrng_jent_async_get] on a filled slot: the drain. *)
Lemma lrng_jent_async_get_filled (eb : entropy_buf) (rb : Z) (st : state) :
  lrng_jent_initialized st = true →
  lrng_jent_async_set st !!! Z.to_nat (candidate_slot st 0) = buffer_filled →
  let slot := candidate_slot st 0 in
  let es := lrng_jent_async st !!! Z.to_nat slot in
  let st' :=
    set_lrng_jent_async_set
      (set_lrng_jent_async
         (set_idx st (atomic_inc_return (idx st)))
         (<[Z.to_nat slot := jent_entropy_es_zero]> (lrng_jent_async st)))
      (<[Z.to_nat slot := buffer_empty]>
         (<[Z.to_nat slot := buffer_reading]> (lrng_jent_async_set st))) in
  lrng_jent_async_get eb rb st
  = ({| eb_e := memcpy (eb_e eb) (e es) LRNG_DRNG_INIT_SEED_SIZE_BYTES;
        eb_e_bits := e_bits es |},
     if (slot `mod` (CONFIG_LRNG_JENT_ENTROPY_BLOCKS / 4) =? 0) && negb (slot =? 0)
     then lrng_jent_async_monitor_schedule st' else st').
Proof.
  intros Hi Hs. unfold candidate_slot in *. simpl in Hs. simpl.
  unfold lrng_jent_async_get, atomic_cmpxchg. rewrite Hi. simpl.
  destruct (decide (_ <> buffer_filled)) as [Hn | _]; [contradiction|].
  destruct (decide (_ = buffer_filled)) as [_ | Hn]; [|contradiction].
  simpl. destruct (_ && _); reflexivity.
Qed.

(** C8. After a pool-path call (async flag set, standard request size,
    subsystem initialised) has drained slot [s], the filler has been
    scheduled by the call if [s] modulo a quarter of the pool size is zero
    and [s] is not zero, and not otherwise: the trace has grown by one
    [schedule_work] in the first case and is the old one in the second. *)
Theorem C8_quarter_pool_refill (eb : entropy_buf) (rb : Z) (st : state) :
  lrng_es_jent_async_enabled st = true →
  rb = lrng_get_seed_entropy_osr true →
  lrng_jent_initialized st = true →
  lrng_jent_async_set st !!! Z.to_nat (candidate_slot st 0) = buffer_filled →
  let s := candidate_slot st 0 in
  let quarter := s `mod` (CONFIG_LRNG_JENT_ENTROPY_BLOCKS / 4) = 0 ∧ s ≠ 0 in
  (quarter →
   trace (lrng_jent_get_check eb rb st).2 = trace st ++ [ev_schedule_work])
  ∧ (¬ quarter → trace (lrng_jent_get_check eb rb st).2 = trace st).
Proof.
  intros He Hrb Hi Hs s quarter.
  rewrite (lrng_jent_get_check_pool eb rb st He Hrb),
    (lrng_jent_async_get_filled eb rb st Hi Hs).
  fold s. subst quarter. cbn [snd].
  unfold lrng_jent_async_monitor_schedule. simpl. rewrite He.
  destruct (Z.eqb_spec (s `mod` (CONFIG_LRNG_JENT_ENTROPY_BLOCKS / 4)) 0) as [Hm|Hm];
    destruct (Z.eqb_spec s 0) as [Hz|Hz]; simpl;
    split; intros Hq; try reflexivity; tauto.
Qed.

(** ** The runtime toggle *)

(** C10. Writing to the toggle the value it holds changes nothing: the
    call returns 0 and the state it found (no slot state is reset, no
    filler is scheduled, nothing is wiped).  A call that does change the
    state parsed its input and found a setting other than the stored
    one. *)
Theorem C10_toggle_idempotent (val : option string) (st : state) :
  ((kstrtobool (default "1"%string val)).1 = 0
   ∧ (kstrtobool (default "1"%string val)).2 = lrng_es_jent_async_enabled st →
   lrng_jent_async_sysfs_set val st = (0, st))
  ∧ ((lrng_jent_async_sysfs_set val st).2 ≠ st →
     (kstrtobool (default "1"%string val)).1 = 0
     ∧ (kstrtobool (default "1"%string val)).2 ≠ lrng_es_jent_async_enabled st).
Proof.
  unfold lrng_jent_async_sysfs_set.
  replace (match val with Some v => v | None => "1"%string end)
    with (default "1"%string val) by (destruct val; reflexivity).
  destruct (kstrtobool (default "1"%string val)) as [ret setting]. simpl.
  destruct (ret =? 0) eqn:Hret; simpl.
  - apply Z.eqb_eq in Hret. subst ret.
    destruct setting, (lrng_es_jent_async_enabled st) eqn:He; simpl;
      split; try (intros [_ Hx]; congruence); try reflexivity;
      try (intros Hx; split; congruence).
  - apply Z.eqb_neq in Hret. split; [intros [Hx _]; contradiction|].
    intros Hx. congruence.
Qed.

(** What the toggle does on an actual transition from disabled to
    enabled: the flag is set, every slot state is reset to [buffer_empty]
    and the filler is scheduled. *)
Lemma lrng_jent_async_init_all_empty (st : state) :
  lrng_es_jent_async_enabled st = true →
  length (lrng_jent_async_set st) = Z.to_nat CONFIG_LRNG_JENT_ENTROPY_BLOCKS →
  lrng_jent_async_set (lrng_jent_async_init st)
  = replicate (Z.to_nat CONFIG_LRNG_JENT_ENTROPY_BLOCKS) buffer_empty.
Proof.
  intros He Hlen. unfold lrng_jent_async_init. rewrite He. simpl.
  revert Hlen. generalize (Z.to_nat CONFIG_LRNG_JENT_ENTROPY_BLOCKS) as n.
  generalize (lrng_jent_async_set st) as v.
  intros v n. revert v. induction n as [|n IH]; intros v Hlen.
  - destruct v; [reflexivity|discriminate].
  - rewrite seq_S, foldl_app. simpl.
    destruct (decide (v = [])) as [->|Hne]; [discriminate|].
    destruct (exists_last Hne) as (v' & x & ->).
    rewrite length_app in Hlen. simpl in Hlen.
    assert (Hl : length v' = n) by lia.
    assert (Hpre : ∀ (l : list nat) (w : list lrng_jent_async_state) y,
               (∀ i, i ∈ l → (i < length w)%nat) →
               foldl (λ u i, <[i:=buffer_empty]> u) (w ++ [y]) l
               = foldl (λ u i, <[i:=buffer_empty]> u) w l ++ [y]).
    { induction l as [|i l IHl]; intros w y Hin; [reflexivity|]. simpl.
      rewrite insert_app_l by (apply Hin; left).
      apply IHl. intros j Hj. rewrite length_insert. apply Hin. by right. }
    rewrite Hpre.
    + rewrite (IH v' Hl).
      rewrite insert_app_r_alt by (rewrite length_replicate; lia).
      rewrite length_replicate, Nat.sub_diag.
      change (buffer_empty :: replicate n buffer_empty)
        with (replicate (S n) buffer_empty).
      rewrite replicate_S_end. reflexivity.
    + intros i Hi. apply elem_of_seq in Hi. lia.
Qed.

(** C2, as the code has it. After the toggle has been switched off while it
    was on, the call has returned 0, the flag is off, and every slot has an
    all-zero buffer and zero credited bits, whatever its state was; the
    slot states are the ones found ([lrng_jent_async_fini] wipes
    [lrng_jent_async] and does not write [lrng_jent_async_set]). *)
Theorem C2_disable_wipes_buffers (val : option string) (st : state) :
  kstrtobool (default "1"%string val) = (0, false) →
  lrng_es_jent_async_enabled st = true →
  (lrng_jent_async_sysfs_set val st).1 = 0
  ∧ lrng_es_jent_async_enabled (lrng_jent_async_sysfs_set val st).2 = false
  ∧ length (lrng_jent_async (lrng_jent_async_sysfs_set val st).2)
    = Z.to_nat CONFIG_LRNG_JENT_ENTROPY_BLOCKS
  ∧ (∀ i es,
       lrng_jent_async (lrng_jent_async_sysfs_set val st).2 !! i = Some es →
       e es = replicate (Z.to_nat LRNG_DRNG_INIT_SEED_SIZE_BYTES) 0
       ∧ e_bits es = 0)
  ∧ lrng_jent_async_set (lrng_jent_async_sysfs_set val st).2
    = lrng_jent_async_set st.
Proof.
  intros Hparse He. unfold lrng_jent_async_sysfs_set.
  replace (match val with Some v => v | None => "1"%string end)
    with (default "1"%string val) by (destruct val; reflexivity).
  rewrite Hparse. simpl. rewrite He. simpl.
  split; [reflexivity|]. split; [reflexivity|].
  split; [apply length_replicate|]. split; [|reflexivity].
  intros i es Hes. apply lookup_replicate in Hes as [-> _].
  split; reflexivity.
Qed.

(** A drain, field by field: the buffer handed back is the slot's, the
    cursor has advanced once, the slot is wiped and empty, and nothing
    else of the pool has changed. *)
Lemma lrng_jent_async_get_drain (eb : entropy_buf) (rb : Z) (st : state) :
  lrng_jent_initialized st = true →
  lrng_jent_async_set st !! Z.to_nat (candidate_slot st 0) = Some buffer_filled →
  let s := Z.to_nat (candidate_slot st 0) in
  (lrng_jent_async_get eb rb st).1
  = {| eb_e := memcpy (eb_e eb) (e (lrng_jent_async st !!! s))
                      LRNG_DRNG_INIT_SEED_SIZE_BYTES;
       eb_e_bits := e_bits (lrng_jent_async st !!! s) |}
  ∧ idx (lrng_jent_async_get eb rb st).2 = atomic_inc_return (idx st)
  ∧ lrng_jent_initialized (lrng_jent_async_get eb rb st).2 = true
  ∧ lrng_jent_async (lrng_jent_async_get eb rb st).2
    = <[s := jent_entropy_es_zero]> (lrng_jent_async st)
  ∧ lrng_jent_async_set (lrng_jent_async_get eb rb st).2
    = <[s := buffer_empty]> (lrng_jent_async_set st).
Proof.
  intros Hi Hs s.
  apply list_lookup_total_correct in Hs.
  rewrite (lrng_jent_async_get_filled eb rb st Hi Hs). fold s. cbn [fst snd].
  split; [reflexivity|].
  unfold lrng_jent_async_monitor_schedule.
  destruct (_ && _); [destruct (lrng_es_jent_async_enabled _)|]; simpl;
    rewrite list_insert_insert_eq; auto.
Qed.

(** ** The asynchronous filler *)

(** One iteration of the filler: a slot that is not empty is skipped; an
    empty slot ends [buffer_filled], holding what [__lrng_jent_get] left in
    its buffer and its credited bits. *)
Lemma lrng_jent_async_monitor_slot_spec (rb : Z) (st : state) (i : nat) :
  lrng_jent_initialized (lrng_jent_async_monitor_slot rb st i)
  = lrng_jent_initialized st
  ∧ (lrng_jent_async_set st !!! i ≠ buffer_empty →
     lrng_jent_async_monitor_slot rb st i = st)
  ∧ (lrng_jent_async_set st !!! i = buffer_empty →
     lrng_jent_async_set (lrng_jent_async_monitor_slot rb st i)
     = <[i := buffer_filled]> (lrng_jent_async_set st)
     ∧ lrng_jent_async (lrng_jent_async_monitor_slot rb st i)
       = <[i := {| e := (__lrng_jent_get (e (lrng_jent_async st !!! i)) rb st).1.1;
                   e_bits := (__lrng_jent_get (e (lrng_jent_async st !!! i)) rb st).1.2 |}]>
           (lrng_jent_async st)).
Proof.
  unfold lrng_jent_async_monitor_slot, atomic_cmpxchg.
  destruct (decide (lrng_jent_async_set st !!! i = buffer_empty)) as [He|Hne].
  - destruct (decide (_ <> buffer_empty)) as [Hn|_]; [contradiction|].
    unfold __lrng_jent_get, crypto_rng_get_bytes, lrng_jent_entropylevel. simpl.
    destruct (lrng_jent_initialized st) eqn:Hinit; simpl.
    + destruct (jitterentropy_rng (jent_calls st) (rb ≫ 3)) as [ret data].
      destruct (ret =? 0); simpl; rewrite list_insert_insert_eq;
        (split; [assumption|]); (split; [intros Hn; contradiction|]); auto.
    + rewrite list_insert_insert_eq.
      split; [assumption|]. split; [intros Hn; contradiction|]. auto.
  - destruct (decide (_ <> buffer_empty)) as [_|Hn]; [|contradiction].
    split; [reflexivity|]. split; [reflexivity|]. intros He. contradiction.
Qed.

(** Iterations for other slots leave a slot alone. *)
Lemma lrng_jent_async_monitor_others (rb : Z) (k : nat) (l : list nat) :
  ∀ st : state, k ∉ l →
  let st' := foldl (lrng_jent_async_monitor_slot rb) st l in
  lrng_jent_initialized st' = lrng_jent_initialized st
  ∧ length (lrng_jent_async st') = length (lrng_jent_async st)
  ∧ length (lrng_jent_async_set st') = length (lrng_jent_async_set st)
  ∧ lrng_jent_async_set st' !! k = lrng_jent_async_set st !! k
  ∧ lrng_jent_async st' !! k = lrng_jent_async st !! k.
Proof.
  induction l as [|i l IH]; intros st Hk; simpl; [auto 10|].
  apply not_elem_of_cons in Hk as [Hki Hkl].
  destruct (IH (lrng_jent_async_monitor_slot rb st i) Hkl)
    as (Hi & Hlen & Hlens & Hs & Ha).
  simpl in Hi, Hlen, Hlens, Hs, Ha. rewrite Hi, Hlen, Hlens, Hs, Ha.
  destruct (lrng_jent_async_monitor_slot_spec rb st i) as (Hi1 & Hskip & Hfill).
  destruct (decide (lrng_jent_async_set st !!! i = buffer_empty)) as [He|Hne].
  - destruct (Hfill He) as [Hs1 Ha1]. rewrite Hi1, Hs1, Ha1, !length_insert.
    rewrite !list_lookup_insert_ne by congruence. auto 10.
  - rewrite (Hskip Hne). auto 10.
Qed.

(** C1, as the code has it. In a pass of the filler, a slot that the pass
    claims (it is [buffer_empty] when the pass starts) and whose fetch fails
    (the subsystem is not initialised, or the Jitter RNG returns non-zero
    to the request made for this slot) ends the pass [buffer_filled], with
    zero credited bits and the buffer bytes it had: the filler has no
    path back to [buffer_empty]. *)
Theorem C1_failed_fetch_ends_filled (st : state) (i : nat) :
  length (lrng_jent_async st) = Z.to_nat CONFIG_LRNG_JENT_ENTROPY_BLOCKS →
  length (lrng_jent_async_set st) = Z.to_nat CONFIG_LRNG_JENT_ENTROPY_BLOCKS →
  lrng_jent_async_set st !! i = Some buffer_empty →
  lrng_jent_initialized st = false
  ∨ (jitterentropy_rng
       (jent_calls (lrng_jent_async_monitor_upto i st))
       (lrng_get_seed_entropy_osr true ≫ 3)).1 ≠ 0 →
  lrng_jent_async_set (lrng_jent_async_monitor st) !! i = Some buffer_filled
  ∧ lrng_jent_async (lrng_jent_async_monitor st) !! i
    = Some {| e := e (lrng_jent_async st !!! i); e_bits := 0 |}.
Proof.
  intros Hla Hls Hclaim Hfail.
  set (rb := lrng_get_seed_entropy_osr true) in *.
  set (B := Z.to_nat CONFIG_LRNG_JENT_ENTROPY_BLOCKS) in *.
  assert (Hi : (i < B)%nat) by (apply lookup_lt_Some in Hclaim; lia).
  unfold lrng_jent_async_monitor. fold rb B.
  replace B with (i + S (B - S i))%nat by lia.
  rewrite seq_app, foldl_app. cbn [seq foldl]. simpl (0 + i)%nat.
  change (foldl (lrng_jent_async_monitor_slot rb) st (seq 0 i))
    with (lrng_jent_async_monitor_upto i st).
  set (sti := lrng_jent_async_monitor_upto i st) in *.
  destruct (lrng_jent_async_monitor_others rb i (seq 0 i) st)
    as (Hi0 & Hl0 & Hls0 & Hs0 & Ha0).
  { intros Hin. apply elem_of_seq in Hin. lia. }
  change (foldl (lrng_jent_async_monitor_slot rb) st (seq 0 i))
    with sti in Hi0, Hl0, Hls0, Hs0, Ha0.
  destruct (lrng_jent_async_monitor_others rb i (seq (S i) (B - S i))
              (lrng_jent_async_monitor_slot rb sti i))
    as (_ & _ & _ & Hs2 & Ha2).
  { intros Hin. apply elem_of_seq in Hin. lia. }
  simpl in Hs2, Ha2. rewrite Hs2, Ha2.
  destruct (lrng_jent_async_monitor_slot_spec rb sti i) as (_ & _ & Hfill).
  destruct Hfill as [Hs1 Ha1].
  { apply list_lookup_total_correct. congruence. }
  rewrite Hs1, Ha1.
  assert (Herr : lrng_jent_initialized sti = false
                 ∨ (jitterentropy_rng (jent_calls sti) (rb ≫ 3)).1 ≠ 0).
  { destruct Hfail as [Hu|Hr]; [left; congruence|right; assumption]. }
  rewrite (lrng_jent_get_error _ rb sti Herr). simpl.
  assert (Hsame : lrng_jent_async sti !!! i = lrng_jent_async st !!! i).
  { rewrite !list_lookup_total_alt, Ha0. reflexivity. }
  rewrite Hsame.
  rewrite !list_lookup_insert_eq by lia. auto.
Qed.

(** ** More on the asynchronous filler *)

(** What one iteration of the filler does not write, and the requests it
    makes. *)
Lemma lrng_jent_async_monitor_slot_frame (rb : Z) (st : state) (i : nat) :
  idx (lrng_jent_async_monitor_slot rb st i) = idx st
  ∧ lrng_es_jent_async_enabled (lrng_jent_async_monitor_slot rb st i)
    = lrng_es_jent_async_enabled st
  ∧ jent_entropy (lrng_jent_async_monitor_slot rb st i) = jent_entropy st
  ∧ jent_calls (lrng_jent_async_monitor_slot rb st i)
    = (if decide (lrng_jent_async_set st !!! i = buffer_empty)
       then if lrng_jent_initialized st then S (jent_calls st) else jent_calls st
       else jent_calls st).
Proof.
  unfold lrng_jent_async_monitor_slot, atomic_cmpxchg.
  destruct (decide (lrng_jent_async_set st !!! i = buffer_empty)) as [He|Hne].
  - destruct (decide (_ <> buffer_empty)) as [Hn|_]; [contradiction|].
    unfold __lrng_jent_get, crypto_rng_get_bytes. simpl.
    destruct (lrng_jent_initialized st); simpl; [|auto].
    destruct (jitterentropy_rng (jent_calls st) (rb ≫ 3)) as [ret data].
    destruct (ret =? 0); simpl; auto.
  - destruct (decide (_ <> buffer_empty)) as [_|Hn]; [auto|contradiction].
Qed.

Lemma lrng_jent_async_monitor_fold_frame (rb : Z) (l : list nat) :
  ∀ st : state,
  idx (foldl (lrng_jent_async_monitor_slot rb) st l) = idx st
  ∧ lrng_es_jent_async_enabled (foldl (lrng_jent_async_monitor_slot rb) st l)
    = lrng_es_jent_async_enabled st
  ∧ jent_entropy (foldl (lrng_jent_async_monitor_slot rb) st l) = jent_entropy st
  ∧ lrng_jent_initialized (foldl (lrng_jent_async_monitor_slot rb) st l)
    = lrng_jent_initialized st.
Proof.
  induction l as [|i l IH]; intros st; simpl; [auto|].
  destruct (IH (lrng_jent_async_monitor_slot rb st i)) as (Hx & He & Hr & Hi).
  destruct (lrng_jent_async_monitor_slot_frame rb st i) as (Hx1 & He1 & Hr1 & _).
  destruct (lrng_jent_async_monitor_slot_spec rb st i) as (Hi1 & _).
  rewrite Hx, He, Hr, Hi. auto.
Qed.

(** The pass seen from slot [i]: only the iteration for [i] writes the
    slot, and it finds the slot as the pass found it. *)
Lemma lrng_jent_async_monitor_at (st : state) (i : nat) :
  (i < Z.to_nat CONFIG_LRNG_JENT_ENTROPY_BLOCKS)%nat →
  let sti := lrng_jent_async_monitor_upto i st in
  let stf := lrng_jent_async_monitor_slot (lrng_get_seed_entropy_osr true) sti i in
  lrng_jent_async_set (lrng_jent_async_monitor st) !! i
  = lrng_jent_async_set stf !! i
  ∧ lrng_jent_async (lrng_jent_async_monitor st) !! i = lrng_jent_async stf !! i
  ∧ lrng_jent_async_set sti !! i = lrng_jent_async_set st !! i
  ∧ lrng_jent_async sti !! i = lrng_jent_async st !! i
  ∧ length (lrng_jent_async sti) = length (lrng_jent_async st)
  ∧ lrng_jent_initialized sti = lrng_jent_initialized st
  ∧ jent_entropy sti = jent_entropy st.
Proof.
  intros Hi sti stf.
  set (rb := lrng_get_seed_entropy_osr true) in *.
  set (B := Z.to_nat CONFIG_LRNG_JENT_ENTROPY_BLOCKS) in *.
  destruct (lrng_jent_async_monitor_others rb i (seq 0 i) st)
    as (Hi0 & Hl0 & _ & Hs0 & Ha0).
  { intros Hin. apply elem_of_seq in Hin. lia. }
  destruct (lrng_jent_async_monitor_fold_frame rb (seq 0 i) st) as (_ & _ & Hr0 & _).
  change (foldl (lrng_jent_async_monitor_slot rb) st (seq 0 i))
    with sti in Hi0, Hl0, Hs0, Ha0, Hr0.
  destruct (lrng_jent_async_monitor_others rb i (seq (S i) (B - S i)) stf)
    as (_ & _ & _ & Hs2 & Ha2).
  { intros Hin. apply elem_of_seq in Hin. lia. }
  simpl in Hs2, Ha2.
  assert (Hrun : lrng_jent_async_monitor st
                 = foldl (lrng_jent_async_monitor_slot rb) stf (seq (S i) (B - S i))).
  { unfold lrng_jent_async_monitor. fold rb B.
    replace B with (i + S (B - S i))%nat at 1 by lia.
    rewrite seq_app, foldl_app. reflexivity. }
  rewrite Hrun. auto 10.
Qed.

Lemma lrng_jent_async_monitor_states (st : state) (i : nat) (s : lrng_jent_async_state) :
  length (lrng_jent_async_set st) = Z.to_nat CONFIG_LRNG_JENT_ENTROPY_BLOCKS →
  lrng_jent_async_set st !! i = Some s →
  lrng_jent_async_set (lrng_jent_async_monitor st) !! i
  = Some (if decide (s = buffer_empty) then buffer_filled else s).
Proof.
  intros Hls Hs.
  assert (Hi : (i < Z.to_nat CONFIG_LRNG_JENT_ENTROPY_BLOCKS)%nat)
    by (apply lookup_lt_Some in Hs; lia).
  destruct (lrng_jent_async_monitor_at st i Hi) as (Hf & _ & Hs0 & _).
  rewrite Hf.
  set (sti := lrng_jent_async_monitor_upto i st) in *.
  rewrite Hs in Hs0.
  destruct (lrng_jent_async_monitor_slot_spec (lrng_get_seed_entropy_osr true) sti i)
    as (_ & Hskip & Hfill).
  rewrite (list_lookup_total_correct _ _ _ Hs0) in Hskip, Hfill.
  destruct (decide (s = buffer_empty)) as [He|Hne].
  - destruct (Hfill He) as [Hs1 _]. rewrite Hs1.
    apply list_lookup_insert_eq. by apply lookup_lt_Some in Hs0.
  - rewrite (Hskip Hne). assumption.
Qed.

Lemma lrng_jent_async_monitor_length (st : state) :
  length (lrng_jent_async_set (lrng_jent_async_monitor st))
  = length (lrng_jent_async_set st)
  ∧ length (lrng_jent_async (lrng_jent_async_monitor st))
    = length (lrng_jent_async st).
Proof.
  destruct (lrng_jent_async_monitor_others (lrng_get_seed_entropy_osr true)
              (Z.to_nat CONFIG_LRNG_JENT_ENTROPY_BLOCKS)
              (seq 0 (Z.to_nat CONFIG_LRNG_JENT_ENTROPY_BLOCKS)) st)
    as (_ & Hla & Hls & _).
  { intros Hin. apply elem_of_seq in Hin. lia. }
  split; assumption.
Qed.

(** X1. A pass of the filler over a pool of
    [CONFIG_LRNG_JENT_ENTROPY_BLOCKS] slots turns every slot that was
    [buffer_empty] into [buffer_filled] and leaves the state of every
    other slot as it was; after the pass no slot is [buffer_empty]. *)
Theorem X1_pass_fills_every_empty_slot (st : state) :
  length (lrng_jent_async_set st) = Z.to_nat CONFIG_LRNG_JENT_ENTROPY_BLOCKS →
  (∀ i s, lrng_jent_async_set st !! i = Some s →
          lrng_jent_async_set (lrng_jent_async_monitor st) !! i
          = Some (if decide (s = buffer_empty) then buffer_filled else s))
  ∧ buffer_empty ∉ lrng_jent_async_set (lrng_jent_async_monitor st).
Proof.
  intros Hls. split.
  - intros i s Hs. by apply lrng_jent_async_monitor_states.
  - intros Hin. apply list_elem_of_lookup in Hin as [i Hi].
    assert (Hlt : (i < length (lrng_jent_async_set st))%nat).
    { apply lookup_lt_Some in Hi.
      destruct (lrng_jent_async_monitor_length st) as [Hl _]. lia. }
    apply lookup_lt_is_Some_2 in Hlt as [s Hs].
    rewrite (lrng_jent_async_monitor_states st i s Hls Hs) in Hi.
    destruct (decide (s = buffer_empty)); congruence.
Qed.

(** X2. A pass of the filler writes neither the cursor, the two flags nor
    the rate, whatever the pool holds; and in a pool of
    [CONFIG_LRNG_JENT_ENTROPY_BLOCKS] slots it leaves the buffer and the
    credited bits of every slot that was not [buffer_empty] as they were:
    data that waits to be read is not overwritten. *)
Theorem X2_pass_keeps_unread_slots (st : state) :
  idx (lrng_jent_async_monitor st) = idx st
  ∧ lrng_es_jent_async_enabled (lrng_jent_async_monitor st)
    = lrng_es_jent_async_enabled st
  ∧ lrng_jent_initialized (lrng_jent_async_monitor st) = lrng_jent_initialized st
  ∧ jent_entropy (lrng_jent_async_monitor st) = jent_entropy st
  ∧ (length (lrng_jent_async_set st) = Z.to_nat CONFIG_LRNG_JENT_ENTROPY_BLOCKS →
     ∀ i s, lrng_jent_async_set st !! i = Some s →
            s ≠ buffer_empty →
            lrng_jent_async (lrng_jent_async_monitor st) !! i
            = lrng_jent_async st !! i).
Proof.
  destruct (lrng_jent_async_monitor_fold_frame (lrng_get_seed_entropy_osr true)
              (seq 0 (Z.to_nat CONFIG_LRNG_JENT_ENTROPY_BLOCKS)) st)
    as (Hx & He & Hr & Hin).
  repeat (split; [assumption|]).
  intros Hls i s Hs Hne.
  assert (Hi : (i < Z.to_nat CONFIG_LRNG_JENT_ENTROPY_BLOCKS)%nat)
    by (apply lookup_lt_Some in Hs; lia).
  destruct (lrng_jent_async_monitor_at st i Hi) as (_ & Hf & Hs0 & Ha0 & _).
  rewrite Hf, <- Ha0.
  set (sti := lrng_jent_async_monitor_upto i st) in *.
  rewrite Hs in Hs0.
  destruct (lrng_jent_async_monitor_slot_spec (lrng_get_seed_entropy_osr true) sti i)
    as (_ & Hskip & _).
  rewrite (list_lookup_total_correct _ _ _ Hs0) in Hskip.
  rewrite (Hskip Hne). reflexivity.
Qed.

Lemma lrng_jent_async_monitor_full (st : state) :
  length (lrng_jent_async_set st) = Z.to_nat CONFIG_LRNG_JENT_ENTROPY_BLOCKS →
  buffer_empty ∉ lrng_jent_async_set st →
  lrng_jent_async_monitor st = st.
Proof.
  intros Hls Hfull. unfold lrng_jent_async_monitor.
  assert (Hall : ∀ l : list nat,
            (∀ i, i ∈ l → (i < length (lrng_jent_async_set st))%nat) →
            foldl (lrng_jent_async_monitor_slot (lrng_get_seed_entropy_osr true)) st l
            = st).
  { induction l as [|i l IH]; intros Hl; [reflexivity|]. simpl.
    destruct (lrng_jent_async_monitor_slot_spec
                (lrng_get_seed_entropy_osr true) st i) as (_ & Hskip & _).
    rewrite Hskip.
    - apply IH. intros j Hj. apply Hl. by right.
    - destruct (lookup_lt_is_Some_2 (lrng_jent_async_set st) i) as [s Hs].
      { apply Hl. by left. }
      rewrite (list_lookup_total_correct _ _ _ Hs). intros ->.
      apply Hfull. apply list_elem_of_lookup. eauto. }
  apply Hall. intros i Hi. apply elem_of_seq in Hi. lia.
Qed.

(** X3. A pass of the filler over a pool without a [buffer_empty] slot
    changes nothing: no request reaches the Jitter RNG and no slot is
    written.  So a second pass right after a pass changes nothing. *)
Theorem X3_pass_on_full_pool_is_noop (st : state) :
  length (lrng_jent_async_set st) = Z.to_nat CONFIG_LRNG_JENT_ENTROPY_BLOCKS →
  (buffer_empty ∉ lrng_jent_async_set st → lrng_jent_async_monitor st = st)
  ∧ lrng_jent_async_monitor (lrng_jent_async_monitor st)
    = lrng_jent_async_monitor st.
Proof.
  intros Hls. split; [by apply lrng_jent_async_monitor_full|].
  apply lrng_jent_async_monitor_full.
  - destruct (lrng_jent_async_monitor_length st) as [Hl _]. lia.
  - intros Hin. apply list_elem_of_lookup in Hin as [i Hi].
    assert (Hlt : (i < length (lrng_jent_async_set st))%nat).
    { apply lookup_lt_Some in Hi.
      destruct (lrng_jent_async_monitor_length st) as [Hl _]. lia. }
    apply lookup_lt_is_Some_2 in Hlt as [s Hs].
    rewrite (lrng_jent_async_monitor_states st i s Hls Hs) in Hi.
    destruct (decide (s = buffer_empty)); congruence.
Qed.

Lemma lrng_jent_async_monitor_upto_calls (st : state) (n : nat) :
  (n ≤ length (lrng_jent_async_set st))%nat →
  jent_calls (lrng_jent_async_monitor_upto n st)
  = (jent_calls st
     + (if lrng_jent_initialized st
        then count_empty (take n (lrng_jent_async_set st)) else 0))%nat.
Proof.
  set (rb := lrng_get_seed_entropy_osr true).
  induction n as [|n IH]; intros Hn.
  - unfold lrng_jent_async_monitor_upto, count_empty. simpl.
    destruct (lrng_jent_initialized st); simpl; lia.
  - unfold lrng_jent_async_monitor_upto. fold rb.
    rewrite seq_S, foldl_app. simpl.
    change (foldl (lrng_jent_async_monitor_slot rb) st (seq 0 n))
      with (lrng_jent_async_monitor_upto n st).
    set (stn := lrng_jent_async_monitor_upto n st) in *.
    destruct (lrng_jent_async_monitor_slot_frame rb stn n) as (_ & _ & _ & Hc).
    rewrite Hc, IH by lia.
    destruct (lrng_jent_async_monitor_others rb n (seq 0 n) st)
      as (Hi0 & _ & _ & Hs0 & _).
    { intros Hin. apply elem_of_seq in Hin. lia. }
    change (foldl (lrng_jent_async_monitor_slot rb) st (seq 0 n))
      with stn in Hi0, Hs0.
    destruct (lookup_lt_is_Some_2 (lrng_jent_async_set st) n) as [s Hs]; [lia|].
    rewrite Hs in Hs0.
    rewrite (list_lookup_total_correct _ _ _ Hs0), Hi0.
    rewrite (take_S_r _ _ _ Hs).
    unfold count_empty. rewrite filter_app, length_app.
    rewrite filter_cons, filter_nil.
    destruct (lrng_jent_initialized st);
      destruct (decide (s = buffer_empty)); simpl; lia.
Qed.

(** X4. In a pass over a pool of [CONFIG_LRNG_JENT_ENTROPY_BLOCKS] slots
    the filler makes one request to the Jitter RNG for every slot that was
    [buffer_empty] while the subsystem is initialised, and no request at
    all while it is not. *)
Theorem X4_pass_requests_one_per_empty_slot (st : state) :
  length (lrng_jent_async_set st) = Z.to_nat CONFIG_LRNG_JENT_ENTROPY_BLOCKS →
  jent_calls (lrng_jent_async_monitor st)
  = (jent_calls st
     + (if lrng_jent_initialized st
        then count_empty (lrng_jent_async_set st) else 0))%nat.
Proof.
  intros Hls.
  change (lrng_jent_async_monitor st)
    with (lrng_jent_async_monitor_upto
            (Z.to_nat CONFIG_LRNG_JENT_ENTROPY_BLOCKS) st).
  rewrite lrng_jent_async_monitor_upto_calls by lia.
  rewrite <- Hls, firstn_all. reflexivity.
Qed.

(** The served branch of [__lrng_jent_get]. *)
Lemma lrng_jent_get_served (e0 : list Z) (rb : Z) (st : state) :
  lrng_jent_initialized st = true →
  (jitterentropy_rng (jent_calls st) (rb ≫ 3)).1 = 0 →
  (__lrng_jent_get e0 rb st).1
  = (memcpy e0 (jitterentropy_rng (jent_calls st) (rb ≫ 3)).2 (rb ≫ 3),
     lrng_jent_entropylevel st rb).
Proof.
  intros Hi Hok. unfold __lrng_jent_get, crypto_rng_get_bytes. rewrite Hi. simpl.
  destruct (jitterentropy_rng (jent_calls st) (rb ≫ 3)) as [ret data].
  simpl in Hok. subst ret. reflexivity.
Qed.

(** What a pass leaves in a slot it claims: the outcome of the one
    [__lrng_jent_get] made for the slot. *)
Lemma lrng_jent_async_monitor_content (st : state) (i : nat) :
  length (lrng_jent_async st) = Z.to_nat CONFIG_LRNG_JENT_ENTROPY_BLOCKS →
  length (lrng_jent_async_set st) = Z.to_nat CONFIG_LRNG_JENT_ENTROPY_BLOCKS →
  lrng_jent_async_set st !! i = Some buffer_empty →
  let sti := lrng_jent_async_monitor_upto i st in
  let got :=
    (__lrng_jent_get (e (lrng_jent_async st !!! i))
       (lrng_get_seed_entropy_osr true) sti).1 in
  lrng_jent_async (lrng_jent_async_monitor st) !! i
  = Some {| e := got.1; e_bits := got.2 |}
  ∧ lrng_jent_initialized sti = lrng_jent_initialized st
  ∧ jent_entropy sti = jent_entropy st.
Proof.
  intros Hla Hls Hclaim sti got.
  assert (Hi : (i < Z.to_nat CONFIG_LRNG_JENT_ENTROPY_BLOCKS)%nat)
    by (apply lookup_lt_Some in Hclaim; lia).
  destruct (lrng_jent_async_monitor_at st i Hi)
    as (_ & Hf & Hs0 & Ha0 & Hl0 & Hi0 & Hr0).
  fold sti in Hf, Hs0, Ha0, Hl0, Hi0, Hr0.
  split; [|by auto].
  rewrite Hf. rewrite Hclaim in Hs0.
  destruct (lrng_jent_async_monitor_slot_spec
              (lrng_get_seed_entropy_osr true) sti i) as (_ & _ & Hfill).
  destruct (Hfill (list_lookup_total_correct _ _ _ Hs0)) as [_ Ha1].
  rewrite Ha1, list_lookup_insert_eq by lia.
  assert (Hsame : lrng_jent_async sti !!! i = lrng_jent_async st !!! i).
  { rewrite !list_lookup_total_alt, Ha0. reflexivity. }
  rewrite Hsame. reflexivity.
Qed.

(** X5. In a pass of the filler over an initialised subsystem, a slot that
    the pass claims and whose request the Jitter RNG serves ends the pass
    [buffer_filled]; its buffer holds the bytes generated for the request
    (over the first [requested_bits / 8] bytes) and its credited bits are
    the entropy level of the standard oversampled request size. *)
Theorem X5_served_fetch_fills_slot (st : state) (i : nat) :
  length (lrng_jent_async st) = Z.to_nat CONFIG_LRNG_JENT_ENTROPY_BLOCKS →
  length (lrng_jent_async_set st) = Z.to_nat CONFIG_LRNG_JENT_ENTROPY_BLOCKS →
  lrng_jent_async_set st !! i = Some buffer_empty →
  lrng_jent_initialized st = true →
  (jitterentropy_rng
     (jent_calls (lrng_jent_async_monitor_upto i st))
     (lrng_get_seed_entropy_osr true ≫ 3)).1 = 0 →
  lrng_jent_async_set (lrng_jent_async_monitor st) !! i = Some buffer_filled
  ∧ lrng_jent_async (lrng_jent_async_monitor st) !! i
    = Some {| e := memcpy (e (lrng_jent_async st !!! i))
                     (jitterentropy_rng
                        (jent_calls (lrng_jent_async_monitor_upto i st))
                        (lrng_get_seed_entropy_osr true ≫ 3)).2
                     (lrng_get_seed_entropy_osr true ≫ 3);
              e_bits := lrng_jent_entropylevel st (lrng_get_seed_entropy_osr true) |}.
Proof.
  intros Hla Hls Hclaim Hinit Hok.
  split; [by rewrite (lrng_jent_async_monitor_states st i _ Hls Hclaim)|].
  destruct (lrng_jent_async_monitor_content st i Hla Hls Hclaim) as (Hc & Hi0 & Hr0).
  rewrite Hc, lrng_jent_get_served by congruence. simpl.
  unfold lrng_jent_entropylevel. rewrite Hi0, Hr0. reflexivity.
Qed.

(** X13. Fill, then drain. On an initialised subsystem, let the slot that
    the next pool-path call is assigned be [buffer_empty], and let the
    Jitter RNG serve the request that a pass of the filler makes for it.
    Then the pool-path call made after the pass hands back the bytes
    generated for that request, copied through the slot, and the entropy
    level of the standard request size as credited bits. *)
Theorem X13_fill_then_drain (eb : entropy_buf) (rb : Z) (st : state) :
  lrng_jent_initialized st = true →
  length (lrng_jent_async st) = Z.to_nat CONFIG_LRNG_JENT_ENTROPY_BLOCKS →
  length (lrng_jent_async_set st) = Z.to_nat CONFIG_LRNG_JENT_ENTROPY_BLOCKS →
  lrng_jent_async_set st !! Z.to_nat (candidate_slot st 0) = Some buffer_empty →
  (jitterentropy_rng
     (jent_calls
        (lrng_jent_async_monitor_upto (Z.to_nat (candidate_slot st 0)) st))
     (lrng_get_seed_entropy_osr true ≫ 3)).1 = 0 →
  (lrng_jent_async_get eb rb (lrng_jent_async_monitor st)).1
  = {| eb_e :=
         memcpy (eb_e eb)
           (memcpy (e (lrng_jent_async st !!! Z.to_nat (candidate_slot st 0)))
              (jitterentropy_rng
                 (jent_calls
                    (lrng_jent_async_monitor_upto
                       (Z.to_nat (candidate_slot st 0)) st))
                 (lrng_get_seed_entropy_osr true ≫ 3)).2
              (lrng_get_seed_entropy_osr true ≫ 3))
           LRNG_DRNG_INIT_SEED_SIZE_BYTES;
       eb_e_bits := lrng_jent_entropylevel st (lrng_get_seed_entropy_osr true) |}.
Proof.
  intros Hinit Hla Hls Hclaim Hok.
  destruct (lrng_jent_async_monitor_fold_frame (lrng_get_seed_entropy_osr true)
              (seq 0 (Z.to_nat CONFIG_LRNG_JENT_ENTROPY_BLOCKS)) st)
    as (Hx & _ & _ & Hin).
  fold (lrng_jent_async_monitor st) in Hx, Hin.
  assert (Hcand : candidate_slot (lrng_jent_async_monitor st) 0
                  = candidate_slot st 0).
  { unfold candidate_slot. rewrite Hx. reflexivity. }
  destruct (lrng_jent_async_get_drain eb rb (lrng_jent_async_monitor st))
    as (Hout & _).
  { congruence. }
  { rewrite Hcand.
    by rewrite (lrng_jent_async_monitor_states st _ _ Hls Hclaim). }
  rewrite Hout, Hcand.
  destruct (lrng_jent_async_monitor_content st _ Hla Hls Hclaim) as (Hc & Hi0 & Hr0).
  rewrite (list_lookup_total_correct _ _ _ Hc).
  rewrite lrng_jent_get_served by congruence. simpl.
  unfold lrng_jent_entropylevel. rewrite Hi0, Hr0. reflexivity.
Qed.

(** ** More on the consumer path *)

(** An initialised direct fetch makes one request, served or not. *)
Lemma lrng_jent_get_calls (eb : entropy_buf) (rb : Z) (st : state) :
  jent_calls (lrng_jent_get eb rb st).2
  = (if lrng_jent_initialized st then S (jent_calls st) else jent_calls st).
Proof. jent_get_cases st rb; reflexivity. Qed.

(** X6. The requests that one [lrng_jent_get_check] makes to the Jitter
    RNG: none while the subsystem is not initialised; none when the call is
    served from the pool (async flag set, standard request size, candidate
    slot [buffer_filled]); exactly one in every other case, whether the
    request is served or fails. *)
Theorem X6_get_check_requests (eb : entropy_buf) (rb : Z) (st : state) :
  let hit :=
    lrng_es_jent_async_enabled st = true
    ∧ rb = lrng_get_seed_entropy_osr true
    ∧ lrng_jent_async_set st !!! Z.to_nat (candidate_slot st 0) = buffer_filled in
  (lrng_jent_initialized st = false →
   jent_calls (lrng_jent_get_check eb rb st).2 = jent_calls st)
  ∧ (lrng_jent_initialized st = true → hit →
     jent_calls (lrng_jent_get_check eb rb st).2 = jent_calls st)
  ∧ (lrng_jent_initialized st = true → ¬ hit →
     jent_calls (lrng_jent_get_check eb rb st).2 = S (jent_calls st)).
Proof.
  intros hit. subst hit.
  assert (Hsched : ∀ st0, jent_calls (lrng_jent_async_monitor_schedule st0)
                          = jent_calls st0).
  { intros st0. unfold lrng_jent_async_monitor_schedule.
    destruct (lrng_es_jent_async_enabled st0); reflexivity. }
  split; [|split].
  - intros Hi. unfold lrng_jent_get_check, lrng_jent_async_get.
    rewrite Hi. simpl.
    destruct (_ && _); [reflexivity|].
    rewrite lrng_jent_get_calls, Hi. reflexivity.
  - intros Hi (He & Hrb & Hs).
    rewrite (lrng_jent_get_check_pool eb rb st He Hrb),
      (lrng_jent_async_get_filled eb rb st Hi Hs).
    cbn [snd]. destruct (_ && _); [rewrite Hsched|]; reflexivity.
  - intros Hi Hmiss. unfold lrng_jent_get_check.
    destruct (lrng_es_jent_async_enabled st) eqn:He; simpl;
      [|rewrite lrng_jent_get_calls, Hi; reflexivity].
    destruct (Z.eqb_spec rb (lrng_get_seed_entropy_osr true)) as [Hrb|Hrb];
      [|rewrite lrng_jent_get_calls, Hi; reflexivity].
    rewrite (lrng_jent_async_get_exhausted eb rb st Hi) by tauto.
    cbn [snd]. rewrite Hsched. simpl.
    rewrite lrng_jent_get_calls, Hi. reflexivity.
Qed.

(** What a call of [lrng_jent_get_check] does to the pool: nothing, or the
    drain of one slot. *)
Lemma lrng_jent_get_check_pool_effect (eb : entropy_buf) (rb : Z) (st : state) :
  (lrng_jent_async_set (lrng_jent_get_check eb rb st).2 = lrng_jent_async_set st
   ∧ lrng_jent_async (lrng_jent_get_check eb rb st).2 = lrng_jent_async st)
  ∨ (∃ s, lrng_jent_async_set (lrng_jent_get_check eb rb st).2
          = <[s := buffer_empty]> (lrng_jent_async_set st)
          ∧ lrng_jent_async (lrng_jent_get_check eb rb st).2
            = <[s := jent_entropy_es_zero]> (lrng_jent_async st)).
Proof.
  pose proof (lrng_jent_get_frame eb rb st) as Hf. simpl in Hf.
  destruct Hf as (Ha & Hs & _).
  unfold lrng_jent_get_check.
  destruct (_ && _); [|left; auto].
  destruct (lrng_jent_initialized st) eqn:Hi.
  - destruct (decide (lrng_jent_async_set st !!! Z.to_nat (candidate_slot st 0)
                      = buffer_filled)) as [Hfull|Hex].
    + right. exists (Z.to_nat (candidate_slot st 0)).
      rewrite (lrng_jent_async_get_filled eb rb st Hi Hfull). cbn [snd].
      unfold lrng_jent_async_monitor_schedule.
      destruct (_ && _); [destruct (lrng_es_jent_async_enabled _)|]; simpl;
        rewrite list_insert_insert_eq; auto.
    + left. rewrite (lrng_jent_async_get_exhausted eb rb st Hi Hex). cbn [snd].
      unfold lrng_jent_async_monitor_schedule.
      destruct (lrng_es_jent_async_enabled _); simpl; auto.
  - left. unfold lrng_jent_async_get. rewrite Hi. simpl. auto.
Qed.

(** What an iteration of the filler does to the pool: nothing, or the fill
    of its slot. *)
Lemma lrng_jent_async_monitor_slot_effect (rb : Z) (st : state) (i : nat) :
  lrng_jent_async_monitor_slot rb st i = st
  ∨ (∃ x, lrng_jent_async_set (lrng_jent_async_monitor_slot rb st i)
          = <[i := buffer_filled]> (lrng_jent_async_set st)
          ∧ lrng_jent_async (lrng_jent_async_monitor_slot rb st i)
            = <[i := x]> (lrng_jent_async st)).
Proof.
  destruct (lrng_jent_async_monitor_slot_spec rb st i) as (_ & Hskip & Hfill).
  destruct (decide (lrng_jent_async_set st !!! i = buffer_empty)) as [He|Hne].
  - right. destruct (Hfill He) as [Hs Ha]. eauto.
  - left. auto.
Qed.

Lemma lrng_jent_async_init_set (st : state) :
  lrng_jent_async (lrng_jent_async_init st) = lrng_jent_async st
  ∧ ∀ i s, lrng_jent_async_set (lrng_jent_async_init st) !! i = Some s →
           s = buffer_empty ∨ lrng_jent_async_set st !! i = Some s.
Proof.
  unfold lrng_jent_async_init.
  destruct (lrng_es_jent_async_enabled st); simpl; [|auto].
  split; [reflexivity|].
  generalize (seq 0 (Z.to_nat CONFIG_LRNG_JENT_ENTROPY_BLOCKS)) as l.
  generalize (lrng_jent_async_set st) as v.
  intros v l. revert v.
  induction l as [|k l IH]; intros v i s Hs; simpl in Hs; [auto|].
  destruct (IH _ _ _ Hs) as [He|Hin]; [auto|].
  apply list_lookup_insert_Some in Hin as [(_ & <- & _)|[_ Hin]]; auto.
Qed.

(** X11. Between calls no slot is left [buffer_filling] or
    [buffer_reading]: when every slot is [buffer_empty] or [buffer_filled],
    it still is so after a call of [lrng_jent_get_check], after a pass of
    the filler, after a write to the toggle and after
    [lrng_jent_initialize]. *)
Theorem X11_calls_leave_slots_settled (st : state) :
  settled st →
  (∀ eb rb, settled (lrng_jent_get_check eb rb st).2)
  ∧ settled (lrng_jent_async_monitor st)
  ∧ (∀ val, settled (lrng_jent_async_sysfs_set val st).2)
  ∧ (∀ jent, settled (lrng_jent_initialize jent st).2).
Proof.
  intros Hst.
  assert (Hinit : ∀ st0, settled st0 → settled (lrng_jent_async_init st0)).
  { intros st0 H0 i s Hs.
    destruct (lrng_jent_async_init_set st0) as [_ Hset].
    destruct (Hset i s Hs) as [He|Hin]; [auto|]. by apply (H0 i). }
  split; [|split; [|split]].
  - intros eb rb i s Hs.
    destruct (lrng_jent_get_check_pool_effect eb rb st) as [[Hset _]|(k & Hset & _)];
      rewrite Hset in Hs; [by apply (Hst i)|].
    apply list_lookup_insert_Some in Hs as [(_ & <- & _)|[_ Hin]]; [auto|].
    by apply (Hst i).
  - unfold lrng_jent_async_monitor.
    generalize (seq 0 (Z.to_nat CONFIG_LRNG_JENT_ENTROPY_BLOCKS)) as l.
    intros l. revert st Hst.
    induction l as [|k l IH]; intros st Hst; simpl; [assumption|].
    apply IH.
    destruct (lrng_jent_async_monitor_slot_effect
                (lrng_get_seed_entropy_osr true) st k) as [Heq|(x & Hset & _)];
      [by rewrite Heq|].
    intros i s Hs. rewrite Hset in Hs.
    apply list_lookup_insert_Some in Hs as [(_ & <- & _)|[_ Hin]]; [auto|].
    by apply (Hst i).
  - intros val. unfold lrng_jent_async_sysfs_set.
    destruct (kstrtobool _) as [ret setting].
    destruct (negb (ret =? 0)); [assumption|].
    destruct setting, (lrng_es_jent_async_enabled st); simpl; try assumption.
    unfold lrng_jent_async_monitor_schedule.
    assert (Hs1 : settled (lrng_jent_async_init
                             (set_lrng_es_jent_async_enabled st true)))
      by (apply Hinit; exact Hst).
    destruct (lrng_es_jent_async_enabled _); exact Hs1.
  - intros [|err]; [|assumption].
    unfold lrng_jent_initialize, lrng_jent_async_init_complete. cbn [snd].
    pose proof (Hinit st Hst) as Hs1.
    destruct (_ && _); destruct (negb _); exact Hs1.
Qed.

Lemma wiped_unless_filled_boot : wiped_unless_filled boot_state.
Proof.
  intros i s es _ Ha _. simpl in Ha.
  apply lookup_replicate in Ha as [-> _]. reflexivity.
Qed.

(** X12. The wipe invariant. In the state that the C file starts with, and
    after [lrng_jent_initialize] on it, every slot that is not
    [buffer_filled] holds an all-zero buffer and zero credited bits; and
    whenever that holds, it still holds after a call of
    [lrng_jent_get_check] and after a pass of the filler. *)
Theorem X12_wipe_invariant :
  (∀ jent, wiped_unless_filled (lrng_jent_initialize jent boot_state).2)
  ∧ (∀ st, wiped_unless_filled st →
           (∀ eb rb, wiped_unless_filled (lrng_jent_get_check eb rb st).2)
           ∧ wiped_unless_filled (lrng_jent_async_monitor st)).
Proof.
  split.
  - intros [|err]; [|exact wiped_unless_filled_boot].
    intros i s es _ Ha _.
    assert (Hsame : lrng_jent_async (lrng_jent_initialize rng_handle boot_state).2
                    = lrng_jent_async boot_state).
    { unfold lrng_jent_initialize, lrng_jent_async_init_complete. cbn [snd].
      destruct (lrng_jent_async_init_set boot_state) as [Hb _].
      destruct (_ && _); destruct (negb _); exact Hb. }
    rewrite Hsame in Ha. simpl in Ha.
    apply lookup_replicate in Ha as [-> _]. reflexivity.
  - intros st Hst. split.
    + intros eb rb i s es Hs Ha Hne.
      destruct (lrng_jent_get_check_pool_effect eb rb st)
        as [[Hset Hasy]|(k & Hset & Hasy)];
        rewrite Hset in Hs; rewrite Hasy in Ha; [by apply (Hst i s)|].
      apply list_lookup_insert_Some in Ha as [(_ & <- & _)|[Hki Ha]];
        [reflexivity|].
      rewrite list_lookup_insert_ne in Hs by assumption.
      by apply (Hst i s).
    + unfold lrng_jent_async_monitor.
      generalize (seq 0 (Z.to_nat CONFIG_LRNG_JENT_ENTROPY_BLOCKS)) as l.
      intros l. revert st Hst.
      induction l as [|k l IH]; intros st Hst; simpl; [assumption|].
      apply IH.
      destruct (lrng_jent_async_monitor_slot_effect
                  (lrng_get_seed_entropy_osr true) st k) as [Heq|(x & Hset & Hasy)];
        [by rewrite Heq|].
      intros i s es Hs Ha Hne. rewrite Hset in Hs. rewrite Hasy in Ha.
      apply list_lookup_insert_Some in Hs as [(_ & <- & _)|[Hki Hs]];
        [contradiction|].
      rewrite list_lookup_insert_ne in Ha by assumption.
      by apply (Hst i s).
Qed.

(** ** More on the toggle and on initialisation *)

Lemma lrng_jent_async_sysfs_set_enable (val : option string) (st : state) :
  kstrtobool (default "1"%string val) = (0, true) →
  lrng_es_jent_async_enabled st = false →
  lrng_jent_async_sysfs_set val st
  = (0, lrng_jent_async_monitor_schedule
          (lrng_jent_async_init (set_lrng_es_jent_async_enabled st true))).
Proof.
  intros Hp He. unfold lrng_jent_async_sysfs_set.
  replace (match val with Some v => v | None => "1"%string end)
    with (default "1"%string val) by (destruct val; reflexivity).
  rewrite Hp. simpl. rewrite He. reflexivity.
Qed.

Lemma lrng_jent_async_sysfs_set_disable (val : option string) (st : state) :
  kstrtobool (default "1"%string val) = (0, false) →
  lrng_es_jent_async_enabled st = true →
  lrng_jent_async_sysfs_set val st
  = (0, lrng_jent_async_fini (set_lrng_es_jent_async_enabled st false)).
Proof.
  intros Hp He. unfold lrng_jent_async_sysfs_set.
  replace (match val with Some v => v | None => "1"%string end)
    with (default "1"%string val) by (destruct val; reflexivity).
  rewrite Hp. simpl. rewrite He. reflexivity.
Qed.

(** X8. Switching the toggle on while it is off returns 0, sets the flag,
    resets the state of every one of the
    [CONFIG_LRNG_JENT_ENTROPY_BLOCKS] slots to [buffer_empty] and
    schedules the filler once; the slot buffers and the cursor are the
    ones found. *)
Theorem X8_enable_resets_states_and_schedules (val : option string) (st : state) :
  kstrtobool (default "1"%string val) = (0, true) →
  lrng_es_jent_async_enabled st = false →
  length (lrng_jent_async_set st) = Z.to_nat CONFIG_LRNG_JENT_ENTROPY_BLOCKS →
  (lrng_jent_async_sysfs_set val st).1 = 0
  ∧ lrng_es_jent_async_enabled (lrng_jent_async_sysfs_set val st).2 = true
  ∧ lrng_jent_async_set (lrng_jent_async_sysfs_set val st).2
    = replicate (Z.to_nat CONFIG_LRNG_JENT_ENTROPY_BLOCKS) buffer_empty
  ∧ lrng_jent_async (lrng_jent_async_sysfs_set val st).2 = lrng_jent_async st
  ∧ idx (lrng_jent_async_sysfs_set val st).2 = idx st
  ∧ trace (lrng_jent_async_sysfs_set val st).2 = trace st ++ [ev_schedule_work].
Proof.
  intros Hp He Hls.
  rewrite (lrng_jent_async_sysfs_set_enable val st Hp He). cbn [fst snd].
  pose proof (lrng_jent_async_init_all_empty
                (set_lrng_es_jent_async_enabled st true) eq_refl Hls) as Hall.
  unfold lrng_jent_async_monitor_schedule, lrng_jent_async_init in *.
  simpl in *. rewrite Hall. auto 10.
Qed.

(** X9. Off, then on. Switching the toggle off while it is on and then on
    again leaves a clean pool: the flag is set, every slot is
    [buffer_empty] with an all-zero buffer and zero credited bits, and the
    filler has been scheduled once. *)
Theorem X9_off_then_on_gives_clean_pool (off on : option string) (st : state) :
  kstrtobool (default "1"%string off) = (0, false) →
  kstrtobool (default "1"%string on) = (0, true) →
  lrng_es_jent_async_enabled st = true →
  length (lrng_jent_async_set st) = Z.to_nat CONFIG_LRNG_JENT_ENTROPY_BLOCKS →
  let st' :=
    (lrng_jent_async_sysfs_set on (lrng_jent_async_sysfs_set off st).2).2 in
  lrng_es_jent_async_enabled st' = true
  ∧ lrng_jent_async_set st'
    = replicate (Z.to_nat CONFIG_LRNG_JENT_ENTROPY_BLOCKS) buffer_empty
  ∧ lrng_jent_async st'
    = replicate (Z.to_nat CONFIG_LRNG_JENT_ENTROPY_BLOCKS) jent_entropy_es_zero
  ∧ trace st' = trace st ++ [ev_schedule_work].
Proof.
  intros Hoff Hon He Hls st'. subst st'.
  rewrite (lrng_jent_async_sysfs_set_disable off st Hoff He). cbn [snd].
  rewrite lrng_jent_async_sysfs_set_enable by (assumption || reflexivity).
  cbn [snd].
  pose proof (lrng_jent_async_init_all_empty
                (set_lrng_es_jent_async_enabled
                   (lrng_jent_async_fini (set_lrng_es_jent_async_enabled st false))
                   true) eq_refl Hls) as Hall.
  unfold lrng_jent_async_monitor_schedule, lrng_jent_async_init in *.
  simpl in *. rewrite Hall. auto.
Qed.

(** X10. The outcome of [lrng_jent_initialize]. Without a Jitter RNG the
    call returns the error of [crypto_alloc_rng] and the state it found
    (the subsystem stays uninitialised).  With one it returns 0 and marks
    the subsystem initialised, without a request to the Jitter RNG and
    without a write to the slot buffers, the cursor or the async flag;
    with the async flag set, every one of the
    [CONFIG_LRNG_JENT_ENTROPY_BLOCKS] slots is [buffer_empty] afterwards;
    and [lrng_force_fully_seeded] is called exactly when the rate that the
    call leaves is not zero. *)
Theorem X10_initialize_outcome (st : state) :
  (∀ err, lrng_jent_initialize (rng_ERR_PTR err) st = (err, st))
  ∧ (lrng_jent_initialize rng_handle st).1 = 0
  ∧ lrng_jent_initialized (lrng_jent_initialize rng_handle st).2 = true
  ∧ jent_calls (lrng_jent_initialize rng_handle st).2 = jent_calls st
  ∧ lrng_jent_async (lrng_jent_initialize rng_handle st).2 = lrng_jent_async st
  ∧ idx (lrng_jent_initialize rng_handle st).2 = idx st
  ∧ lrng_es_jent_async_enabled (lrng_jent_initialize rng_handle st).2
    = lrng_es_jent_async_enabled st
  ∧ (lrng_es_jent_async_enabled st = true →
     length (lrng_jent_async_set st) = Z.to_nat CONFIG_LRNG_JENT_ENTROPY_BLOCKS →
     lrng_jent_async_set (lrng_jent_initialize rng_handle st).2
     = replicate (Z.to_nat CONFIG_LRNG_JENT_ENTROPY_BLOCKS) buffer_empty)
  ∧ trace (lrng_jent_initialize rng_handle st).2
    = trace st
      ++ (if decide (jent_entropy (lrng_jent_initialize rng_handle st).2 = 0)
          then [] else [ev_lrng_force_fully_seeded]).
Proof.
  split; [reflexivity|]. split; [reflexivity|].
  unfold lrng_jent_initialize, lrng_jent_async_init_complete. cbn [snd].
  set (st1 := set_lrng_jent_initialized (lrng_jent_async_init st) true).
  assert (H1 : lrng_jent_initialized st1 = true
               ∧ jent_calls st1 = jent_calls st
               ∧ lrng_jent_async st1 = lrng_jent_async st
               ∧ idx st1 = idx st
               ∧ lrng_es_jent_async_enabled st1 = lrng_es_jent_async_enabled st
               ∧ trace st1 = trace st
               ∧ lrng_jent_async_set st1
                 = lrng_jent_async_set (lrng_jent_async_init st)).
  { subst st1. unfold lrng_jent_async_init.
    destruct (lrng_es_jent_async_enabled st) eqn:Hen; simpl; auto 10. }
  destruct H1 as (Hi & Hc & Ha & Hx & He & Ht & Hs).
  set (st2 := if fips_enabled && (CONFIG_LRNG_JENT_ENTROPY_RATE >? 0)
                 && (jent_entropy st1 =? CONFIG_LRNG_JENT_ENTROPY_RATE)
              then set_jent_entropy st1 LRNG_DRNG_SECURITY_STRENGTH_BITS
              else st1).
  assert (H2 : lrng_jent_initialized st2 = true
               ∧ jent_calls st2 = jent_calls st
               ∧ lrng_jent_async st2 = lrng_jent_async st
               ∧ idx st2 = idx st
               ∧ lrng_es_jent_async_enabled st2 = lrng_es_jent_async_enabled st
               ∧ trace st2 = trace st
               ∧ lrng_jent_async_set st2
                 = lrng_jent_async_set (lrng_jent_async_init st)).
  { subst st2. destruct (_ && _); simpl; auto 10. }
  clearbody st2. clear Hi Hc Ha Hx He Ht Hs.
  destruct H2 as (Hi & Hc & Ha & Hx & He & Ht & Hs).
  destruct (Z.eqb_spec (jent_entropy st2) 0) as [Hz|Hnz]; simpl.
  - rewrite decide_True by assumption. rewrite app_nil_r.
    repeat (split; [assumption|]). split; [|assumption].
    intros Hen Hls. rewrite Hs. by apply lrng_jent_async_init_all_empty.
  - rewrite decide_False by assumption. rewrite Ht.
    repeat (split; [assumption|]). split; [|reflexivity].
    intros Hen Hls. rewrite Hs. by apply lrng_jent_async_init_all_empty.
Qed.

(** ** Array bounds *)

Lemma land_le_r (a b : Z) : 0 ≤ b → Z.land a b ≤ b.
Proof.
  intros Hb.
  assert (Hsplit : b = Z.land a b + Z.ldiff b a).
  { assert (Hdisj : Z.land (Z.land a b) (Z.ldiff b a) = 0).
    { apply Z.bits_inj'. intros n Hn.
      rewrite !Z.land_spec, Z.ldiff_spec, Z.bits_0.
      destruct (Z.testbit a n), (Z.testbit b n); reflexivity. }
    rewrite (Z.add_nocarry_lxor _ _ Hdisj), (Z.lxor_lor _ _ Hdisj).
    apply Z.bits_inj'. intros n Hn.
    rewrite Z.lor_spec, Z.land_spec, Z.ldiff_spec.
    destruct (Z.testbit a n), (Z.testbit b n); reflexivity. }
  assert (Hd : 0 ≤ Z.ldiff b a) by (apply Z.ldiff_nonneg; auto).
  lia.
Qed.

(** X15. The cursor stays a C [int] and the slot index stays inside the
    arrays. Whatever the cursor holds, [atomic_inc_return] leaves a value
    of the range of [int] (wrapping from [INT_MAX] to [INT_MIN]), and the
    masked slot index of a pool-path call lies between 0 and
    [CONFIG_LRNG_JENT_ENTROPY_BLOCKS - 1] as soon as the pool has one
    slot, power of two or not. *)
Theorem X15_slot_index_in_bounds (st : state) (j : nat) :
  0 < CONFIG_LRNG_JENT_ENTROPY_BLOCKS →
  (- 2 ^ 31 ≤ atomic_inc_return (idx st) < 2 ^ 31)
  ∧ atomic_inc_return (2 ^ 31 - 1) = - 2 ^ 31
  ∧ 0 ≤ candidate_slot st j < CONFIG_LRNG_JENT_ENTROPY_BLOCKS.
Proof.
  intros HB. split; [|split].
  - unfold atomic_inc_return, int_wrap.
    pose proof (Z.mod_pos_bound (idx st + 1 + 2 ^ 31) (2 ^ 32)). lia.
  - reflexivity.
  - unfold candidate_slot, LRNG_JENT_ENTROPY_BLOCKS_MASK. split.
    + apply Z.land_nonneg. right. lia.
    + pose proof (land_le_r
                    (unsigned_int (Nat.iter (S j) atomic_inc_return (idx st)))
                    (CONFIG_LRNG_JENT_ENTROPY_BLOCKS - 1)). lia.
Qed.

(** ** The cursor *)

Section Cursor.

(** The two [BUILD_BUG_ON] of [lrng_jent_async_get], and the type of the
    configuration constant. *)
Hypothesis BUILD_BUG_ON_power_of_2 :
  Z.land CONFIG_LRNG_JENT_ENTROPY_BLOCKS LRNG_JENT_ENTROPY_BLOCKS_MASK = 0.
Hypothesis BUILD_BUG_ON_at_least_4 : 4 ≤ CONFIG_LRNG_JENT_ENTROPY_BLOCKS.
Hypothesis BLOCKS_is_int : CONFIG_LRNG_JENT_ENTROPY_BLOCKS < 2 ^ 31.

Lemma BLOCKS_power_of_2 :
  ∃ m, 0 ≤ m ≤ 30 ∧ CONFIG_LRNG_JENT_ENTROPY_BLOCKS = 2 ^ m.
Proof.
  unfold LRNG_JENT_ENTROPY_BLOCKS_MASK in BUILD_BUG_ON_power_of_2.
  set (B := CONFIG_LRNG_JENT_ENTROPY_BLOCKS) in *.
  assert (Hpos : 0 < B) by lia.
  pose proof (Z.log2_spec B Hpos) as [Hlo Hhi].
  pose proof (Z.log2_nonneg B) as Hm.
  exists (Z.log2 B). split.
  - split; [assumption|].
    destruct (Z_le_gt_dec (Z.log2 B) 30) as [|Hgt]; [assumption|exfalso].
    assert (2 ^ 31 ≤ 2 ^ Z.log2 B) by (apply Z.pow_le_mono_r; lia). lia.
  - destruct (Z.eq_dec B (2 ^ Z.log2 B)) as [|Hne]; [assumption|exfalso].
    assert (Hl : Z.log2 (B - 1) = Z.log2 B).
    { apply Z.log2_unique; [assumption|]. lia. }
    assert (Hb1 : Z.testbit (B - 1) (Z.log2 B) = true).
    { rewrite <- Hl. apply Z.bit_log2. lia. }
    assert (Hb : Z.testbit B (Z.log2 B) = true) by (apply Z.bit_log2; lia).
    assert (Hand : Z.testbit (Z.land B (B - 1)) (Z.log2 B) = true).
    { rewrite Z.land_spec, Hb, Hb1. reflexivity. }
    rewrite BUILD_BUG_ON_power_of_2, Z.bits_0 in Hand. discriminate.
Qed.

(** Masking the cursor is reduction modulo the number of slots. *)
Lemma mask_is_mod (c : Z) :
  Z.land (unsigned_int c) LRNG_JENT_ENTROPY_BLOCKS_MASK
  = c `mod` CONFIG_LRNG_JENT_ENTROPY_BLOCKS.
Proof.
  destruct BLOCKS_power_of_2 as (m & Hm & HB).
  unfold LRNG_JENT_ENTROPY_BLOCKS_MASK, unsigned_int. rewrite HB.
  replace (2 ^ m - 1) with (Z.ones m) by (rewrite Z.ones_equiv; lia).
  rewrite Z.land_ones by lia.
  apply Z.mod_mod_divide.
  exists (2 ^ (32 - m)). rewrite <- Z.pow_add_r by lia. f_equal. lia.
Qed.

Lemma atomic_inc_return_mod (c : Z) :
  atomic_inc_return c `mod` CONFIG_LRNG_JENT_ENTROPY_BLOCKS
  = (c + 1) `mod` CONFIG_LRNG_JENT_ENTROPY_BLOCKS.
Proof.
  destruct BLOCKS_power_of_2 as (m & Hm & HB).
  unfold atomic_inc_return, int_wrap. rewrite HB.
  assert (Hd : (2 ^ m | 2 ^ 32)).
  { exists (2 ^ (32 - m)). rewrite <- Z.pow_add_r by lia. f_equal. lia. }
  rewrite Zminus_mod, (Z.mod_mod_divide _ _ _ Hd), <- Zminus_mod.
  f_equal. lia.
Qed.

Lemma iter_atomic_inc_return_mod (n : nat) (c : Z) :
  Nat.iter n atomic_inc_return c `mod` CONFIG_LRNG_JENT_ENTROPY_BLOCKS
  = (c + Z.of_nat n) `mod` CONFIG_LRNG_JENT_ENTROPY_BLOCKS.
Proof.
  induction n as [|n IH]; simpl.
  - f_equal. lia.
  - rewrite atomic_inc_return_mod, Zplus_mod, IH, <- Zplus_mod. f_equal. lia.
Qed.

(** The slots are handed out round-robin, starting after the cursor. *)
Lemma candidate_slot_mod (st : state) (j : nat) :
  candidate_slot st j
  = (idx st + 1 + Z.of_nat j) `mod` CONFIG_LRNG_JENT_ENTROPY_BLOCKS.
Proof.
  unfold candidate_slot.
  rewrite mask_is_mod, iter_atomic_inc_return_mod. f_equal. lia.
Qed.

Lemma candidate_slot_range (st : state) (j : nat) :
  0 ≤ candidate_slot st j < CONFIG_LRNG_JENT_ENTROPY_BLOCKS.
Proof. rewrite candidate_slot_mod. apply Z.mod_pos_bound. lia. Qed.

Lemma candidate_slot_distinct (st : state) (j1 j2 : nat) :
  (j1 < j2)%nat → Z.of_nat j2 - Z.of_nat j1 < CONFIG_LRNG_JENT_ENTROPY_BLOCKS →
  candidate_slot st j1 ≠ candidate_slot st j2.
Proof.
  intros Hlt Hd. rewrite !candidate_slot_mod. intros Heq.
  set (B := CONFIG_LRNG_JENT_ENTROPY_BLOCKS) in *.
  assert (Hz : (Z.of_nat j2 - Z.of_nat j1) `mod` B = 0).
  { replace (Z.of_nat j2 - Z.of_nat j1)
      with ((idx st + 1 + Z.of_nat j2) - (idx st + 1 + Z.of_nat j1)) by lia.
    rewrite Zminus_mod, Heq, Z.sub_diag. apply Z.mod_0_l. lia. }
  rewrite Z.mod_small in Hz by lia. lia.
Qed.

Lemma candidate_slot_next (st st1 : state) (j : nat) :
  idx st1 = atomic_inc_return (idx st) →
  candidate_slot st1 j = candidate_slot st (S j).
Proof.
  intros Hidx. unfold candidate_slot. rewrite Hidx.
  rewrite <- (Nat.iter_succ_r (S j)). reflexivity.
Qed.

(** Consecutive pool-path calls on filled candidate slots: each drains its
    slot, and the slots of no call are the ones found. *)
Lemma pool_calls_drain (rb : Z) (ebs : list entropy_buf) :
  ∀ st : state,
  lrng_jent_initialized st = true →
  length (lrng_jent_async st) = Z.to_nat CONFIG_LRNG_JENT_ENTROPY_BLOCKS →
  length (lrng_jent_async_set st) = Z.to_nat CONFIG_LRNG_JENT_ENTROPY_BLOCKS →
  (length ebs ≤ Z.to_nat CONFIG_LRNG_JENT_ENTROPY_BLOCKS)%nat →
  (∀ j, (j < length ebs)%nat →
        lrng_jent_async_set st !! Z.to_nat (candidate_slot st j)
        = Some buffer_filled) →
  idx (pool_calls ebs rb st).2 = Nat.iter (length ebs) atomic_inc_return (idx st)
  ∧ (∀ j eb, ebs !! j = Some eb →
       (pool_calls ebs rb st).1 !! j
       = Some {| eb_e :=
                   memcpy (eb_e eb)
                     (e (lrng_jent_async st !!! Z.to_nat (candidate_slot st j)))
                     LRNG_DRNG_INIT_SEED_SIZE_BYTES;
                 eb_e_bits :=
                   e_bits (lrng_jent_async st !!! Z.to_nat (candidate_slot st j)) |})
  ∧ (∀ j, (j < length ebs)%nat →
       lrng_jent_async_set (pool_calls ebs rb st).2
         !! Z.to_nat (candidate_slot st j) = Some buffer_empty
       ∧ lrng_jent_async (pool_calls ebs rb st).2
           !! Z.to_nat (candidate_slot st j) = Some jent_entropy_es_zero)
  ∧ (∀ k, (∀ j, (j < length ebs)%nat → Z.to_nat (candidate_slot st j) ≠ k) →
       lrng_jent_async_set (pool_calls ebs rb st).2 !! k
       = lrng_jent_async_set st !! k
       ∧ lrng_jent_async (pool_calls ebs rb st).2 !! k
         = lrng_jent_async st !! k).
Proof.
  induction ebs as [|eb ebs IH]; intros st Hi Hla Hls Hn Hfull.
  - simpl. split; [reflexivity|]. split; [intros j eb Hj; discriminate|].
    split; [intros j Hj; simpl in Hj; lia|]. auto.
  - simpl in Hn.
    assert (Hne : ∀ j, (j < length ebs)%nat →
              Z.to_nat (candidate_slot st 0) ≠ Z.to_nat (candidate_slot st (S j))).
    { intros j Hj Heq.
      pose proof (candidate_slot_range st 0).
      pose proof (candidate_slot_range st (S j)).
      apply (candidate_slot_distinct st 0 (S j)); lia. }
    destruct (lrng_jent_async_get_drain eb rb st Hi (Hfull 0%nat ltac:(simpl; lia)))
      as (Hout & Hidx & Hi1 & Ha1 & Hs1).
    simpl. destruct (lrng_jent_async_get eb rb st) as [eb1 st1].
    cbn [fst snd] in Hout, Hidx, Hi1, Ha1, Hs1.
    assert (Hcand : ∀ j, candidate_slot st1 j = candidate_slot st (S j))
      by (intros j; by apply candidate_slot_next).
    destruct (IH st1) as (IHidx & IHout & IHdr & IHfr).
    + assumption.
    + rewrite Ha1, length_insert. assumption.
    + rewrite Hs1, length_insert. assumption.
    + lia.
    + intros j Hj. rewrite Hcand, Hs1.
      rewrite list_lookup_insert_ne by (by apply Hne).
      apply Hfull. simpl. lia.
    + destruct (pool_calls ebs rb st1) as [outs st2].
      cbn [fst snd] in *.
      split; [|split; [|split]].
      * rewrite IHidx, Hidx. rewrite <- Nat.iter_succ_r. reflexivity.
      * intros [|j] eb' Hj; simpl in Hj.
        -- injection Hj as <-. simpl. f_equal. exact Hout.
        -- simpl. rewrite (IHout j eb' Hj), Hcand, Ha1.
           rewrite list_lookup_total_insert_ne; [reflexivity|].
           apply Hne. by apply lookup_lt_Some in Hj.
      * intros [|j] Hj.
        -- destruct (IHfr (Z.to_nat (candidate_slot st 0))) as [Hfs Hfa].
           { intros j Hj'. rewrite Hcand. intros Heq. by apply (Hne j Hj'). }
           rewrite Hfs, Hfa, Hs1, Ha1.
           pose proof (lookup_lt_Some _ _ _ (Hfull 0%nat ltac:(simpl; lia))) as Hlt.
           rewrite !list_lookup_insert_eq by lia. auto.
        -- rewrite <- Hcand. apply IHdr. simpl in Hj. lia.
      * intros k Hk.
        destruct (IHfr k) as [Hfs Hfa].
        { intros j Hj. rewrite Hcand. apply Hk. simpl. lia. }
        rewrite Hfs, Hfa, Hs1, Ha1.
        rewrite !list_lookup_insert_ne by (apply Hk; simpl; lia). auto.
Qed.


Lemma candidate_slot_onto (st : state) (k : nat) :
  (k < Z.to_nat CONFIG_LRNG_JENT_ENTROPY_BLOCKS)%nat →
  ∃ j, (j < Z.to_nat CONFIG_LRNG_JENT_ENTROPY_BLOCKS)%nat
       ∧ Z.to_nat (candidate_slot st j) = k.
Proof.
  intros Hk.
  set (B := CONFIG_LRNG_JENT_ENTROPY_BLOCKS) in *.
  assert (HB : 0 < B) by (unfold B; lia).
  pose proof (Z.mod_pos_bound (Z.of_nat k - idx st - 1) B HB) as Hr.
  exists (Z.to_nat ((Z.of_nat k - idx st - 1) `mod` B)). split; [lia|].
  rewrite candidate_slot_mod. fold B.
  rewrite Z2Nat.id by lia.
  rewrite Zplus_mod_idemp_r.
  replace (idx st + 1 + (Z.of_nat k - idx st - 1)) with (Z.of_nat k) by lia.
  rewrite Z.mod_small by lia. lia.
Qed.

Lemma pool_calls_initialized (rb : Z) (ebs : list entropy_buf) :
  ∀ st : state,
  lrng_jent_initialized (pool_calls ebs rb st).2 = lrng_jent_initialized st.
Proof.
  induction ebs as [|eb ebs IH]; intros st; [reflexivity|]. simpl.
  assert (H1 : lrng_jent_initialized (lrng_jent_async_get eb rb st).2
               = lrng_jent_initialized st).
  { destruct (lrng_jent_initialized st) eqn:Hi.
    - destruct (decide (lrng_jent_async_set st !!! Z.to_nat (candidate_slot st 0)
                        = buffer_filled)) as [Hfull|Hex].
      + rewrite (lrng_jent_async_get_filled eb rb st Hi Hfull). cbn [snd].
        unfold lrng_jent_async_monitor_schedule.
        destruct (_ && _); [destruct (lrng_es_jent_async_enabled _)|];
          simpl; assumption.
      + rewrite (lrng_jent_async_get_exhausted eb rb st Hi Hex). cbn [snd].
        pose proof (lrng_jent_get_frame eb rb st) as Hf. simpl in Hf.
        destruct Hf as (_ & _ & _ & Hin & _).
        unfold lrng_jent_async_monitor_schedule.
        destruct (lrng_es_jent_async_enabled _); simpl; congruence.
    - unfold lrng_jent_async_get. rewrite Hi. simpl. assumption. }
  destruct (lrng_jent_async_get eb rb st) as [eb1 st1]. cbn [snd] in H1.
  specialize (IH st1).
  destruct (pool_calls ebs rb st1) as [outs st2]. cbn [snd] in *. congruence.
Qed.

(** X7. A run of [CONFIG_LRNG_JENT_ENTROPY_BLOCKS] pool-path calls on an
    initialised subsystem whose slots are all filled drains the whole
    pool: every slot is [buffer_empty] with an all-zero buffer and zero
    credited bits.  The pool-path call after the run finds its slot
    exhausted and hands back what the direct path yields. *)
Theorem X7_full_run_empties_pool (rb : Z) (ebs : list entropy_buf) (st : state) :
  lrng_jent_initialized st = true →
  length (lrng_jent_async st) = Z.to_nat CONFIG_LRNG_JENT_ENTROPY_BLOCKS →
  lrng_jent_async_set st
  = replicate (Z.to_nat CONFIG_LRNG_JENT_ENTROPY_BLOCKS) buffer_filled →
  length ebs = Z.to_nat CONFIG_LRNG_JENT_ENTROPY_BLOCKS →
  lrng_jent_async_set (pool_calls ebs rb st).2
  = replicate (Z.to_nat CONFIG_LRNG_JENT_ENTROPY_BLOCKS) buffer_empty
  ∧ lrng_jent_async (pool_calls ebs rb st).2
    = replicate (Z.to_nat CONFIG_LRNG_JENT_ENTROPY_BLOCKS) jent_entropy_es_zero
  ∧ ∀ eb, (lrng_jent_async_get eb rb (pool_calls ebs rb st).2).1
          = (lrng_jent_get eb rb (pool_calls ebs rb st).2).1.
Proof.
  intros Hi Hla Hfull Hn.
  set (B := Z.to_nat CONFIG_LRNG_JENT_ENTROPY_BLOCKS) in *.
  destruct (pool_calls_drain rb ebs st) as (_ & _ & Hdr & Hfr); try assumption.
  { rewrite Hfull. apply length_replicate. }
  { fold B. lia. }
  { intros j Hj. rewrite Hfull. apply lookup_replicate_2.
    pose proof (candidate_slot_range st j). lia. }
  assert (Hset : lrng_jent_async_set (pool_calls ebs rb st).2
                 = replicate B buffer_empty).
  { apply list_eq. intros k.
    destruct (decide (k < B)%nat) as [Hk|Hk].
    - destruct (candidate_slot_onto st k Hk) as (j & Hj & <-).
      destruct (Hdr j) as [Hs _]; [fold B in Hj; lia|].
      rewrite Hs. symmetry. apply lookup_replicate_2. 
      pose proof (candidate_slot_range st j). lia.
    - destruct (Hfr k) as [Hs _].
      { intros j _. pose proof (candidate_slot_range st j). lia. }
      rewrite Hs, Hfull.
      rewrite !lookup_ge_None_2 by (rewrite length_replicate; lia).
      reflexivity. }
  assert (Hasy : lrng_jent_async (pool_calls ebs rb st).2
                 = replicate B jent_entropy_es_zero).
  { apply list_eq. intros k.
    destruct (decide (k < B)%nat) as [Hk|Hk].
    - destruct (candidate_slot_onto st k Hk) as (j & Hj & <-).
      destruct (Hdr j) as [_ Ha]; [fold B in Hj; lia|].
      rewrite Ha. symmetry. apply lookup_replicate_2.
      pose proof (candidate_slot_range st j). lia.
    - destruct (Hfr k) as [_ Ha].
      { intros j _. pose proof (candidate_slot_range st j). lia. }
      rewrite Ha.
      rewrite !lookup_ge_None_2 by (rewrite ?length_replicate; lia).
      reflexivity. }
  split; [assumption|]. split; [assumption|].
  intros eb. rewrite lrng_jent_async_get_exhausted; [reflexivity| |].
  - rewrite pool_calls_initialized. assumption.
  - rewrite Hset.
    pose proof (candidate_slot_range (pool_calls ebs rb st).2 0) as Hr.
    rewrite (list_lookup_total_correct _ _ buffer_empty); [discriminate|].
    apply lookup_replicate_2. fold B. unfold B. lia.
Qed.

End Cursor.

End Properties.

(** * The properties on the sample configuration *)

Lemma C9_error_branch_keeps_buffer_witness :
  (lrng_jent_initialized (sample_ready sample_broken) = false
   ∨ (@jitterentropy_rng sample_broken
        (jent_calls (sample_ready sample_broken)) (256 ≫ 3)).1 ≠ 0)
  ∧ eb_e (@lrng_jent_get sample_broken sample_eb 256
            (sample_ready sample_broken)).1 = eb_e sample_eb
  ∧ eb_e_bits (@lrng_jent_get sample_broken sample_eb 256
                 (sample_ready sample_broken)).1 = 0.
Proof.
  assert (Herr : lrng_jent_initialized (sample_ready sample_broken) = false
                 ∨ (@jitterentropy_rng sample_broken
                      (jent_calls (sample_ready sample_broken)) (256 ≫ 3)).1 ≠ 0).
  { right. vm_compute. discriminate. }
  split; [exact Herr|].
  exact (proj2 (@C9_error_branch_keeps_buffer sample_broken sample_eb 256
                  (sample_ready sample_broken) Herr)).
Defined.

Lemma C5_uninitialized_zero_bits_witness :
  lrng_jent_initialized sample_uninitialized = false
  ∧ @lrng_jent_get_check sample_healthy sample_eb 256 sample_uninitialized
    = ({| eb_e := eb_e sample_eb; eb_e_bits := 0 |}, sample_uninitialized).
Proof.
  split; [reflexivity|].
  exact (proj1 (@C5_uninitialized_zero_bits sample_healthy sample_eb 256
                  sample_uninitialized eq_refl)).
Defined.

(** A request of a non-standard size while the async flag is set and the
    pool is full takes the direct path; a standard one takes the pool
    path. *)
Lemma C3_path_choice_witness :
  (lrng_es_jent_async_enabled (sample_filled sample_healthy) = true
   ∧ 256 = @lrng_get_seed_entropy_osr sample_healthy true)
  ∧ @lrng_jent_get_check sample_healthy sample_eb 256 (sample_filled sample_healthy)
    = @lrng_jent_async_get sample_healthy sample_eb 256 (sample_filled sample_healthy)
  ∧ (lrng_es_jent_async_enabled (sample_filled sample_healthy) = false
     ∨ 128 ≠ @lrng_get_seed_entropy_osr sample_healthy true)
  ∧ idx (@lrng_jent_get_check sample_healthy sample_eb 128
           (sample_filled sample_healthy)).2
    = idx (sample_filled sample_healthy).
Proof.
  assert (Hstd : lrng_es_jent_async_enabled (sample_filled sample_healthy) = true
                 ∧ 256 = @lrng_get_seed_entropy_osr sample_healthy true).
  { split; vm_compute; reflexivity. }
  assert (Hodd : lrng_es_jent_async_enabled (sample_filled sample_healthy) = false
                 ∨ 128 ≠ @lrng_get_seed_entropy_osr sample_healthy true).
  { right. vm_compute. discriminate. }
  split; [exact Hstd|].
  split.
  - exact (proj1 (@C3_path_choice sample_healthy sample_eb 256
                    (sample_filled sample_healthy)) Hstd).
  - split; [exact Hodd|].
    exact (proj2 (proj2 (proj2
             (proj2 (@C3_path_choice sample_healthy sample_eb 128
                       (sample_filled sample_healthy)) Hodd)))).
Defined.

Lemma C6_fips_rate_override_witness :
  (@fips_enabled sample_fips = true
   ∧ 0 < @CONFIG_LRNG_JENT_ENTROPY_RATE sample_fips
   ∧ jent_entropy (@boot_state sample_fips) = @CONFIG_LRNG_JENT_ENTROPY_RATE sample_fips)
  ∧ jent_entropy (@lrng_jent_initialize sample_fips rng_handle
                    (@boot_state sample_fips)).2
    = 256.
Proof.
  assert (Hc : @fips_enabled sample_fips = true
               ∧ 0 < @CONFIG_LRNG_JENT_ENTROPY_RATE sample_fips
               ∧ jent_entropy (@boot_state sample_fips)
                 = @CONFIG_LRNG_JENT_ENTROPY_RATE sample_fips).
  { split; [reflexivity|]. split; [vm_compute; reflexivity|reflexivity]. }
  split; [exact Hc|].
  exact (proj1 (@C6_fips_rate_override sample_fips (@boot_state sample_fips)) Hc).
Defined.

Lemma C7_exhausted_slot_falls_back_witness :
  (lrng_es_jent_async_enabled (sample_ready sample_healthy) = true
   ∧ 256 = @lrng_get_seed_entropy_osr sample_healthy true
   ∧ lrng_jent_initialized (sample_ready sample_healthy) = true
   ∧ lrng_jent_async_set (sample_ready sample_healthy)
       !!! Z.to_nat (@candidate_slot sample_healthy (sample_ready sample_healthy) 0)
     ≠ buffer_filled)
  ∧ (@lrng_jent_get_check sample_healthy sample_eb 256 (sample_ready sample_healthy)).1
    = (@lrng_jent_get sample_healthy sample_eb 256 (sample_ready sample_healthy)).1
  ∧ trace (@lrng_jent_get_check sample_healthy sample_eb 256
             (sample_ready sample_healthy)).2
    = trace (@lrng_jent_get sample_healthy sample_eb 256
               (sample_ready sample_healthy)).2 ++ [ev_schedule_work].
Proof.
  assert (Hs : lrng_jent_async_set (sample_ready sample_healthy)
                 !!! Z.to_nat (@candidate_slot sample_healthy
                                 (sample_ready sample_healthy) 0)
               ≠ buffer_filled).
  { vm_compute. discriminate. }
  split; [repeat split; exact Hs|].
  pose proof (@C7_exhausted_slot_falls_back sample_healthy sample_eb 256
                (sample_ready sample_healthy) eq_refl eq_refl eq_refl Hs) as Hw.
  exact (conj (proj1 Hw) (proj1 (proj2 Hw))).
Defined.

(** Slot 8 of 32 is drained: the filler is scheduled. *)
Lemma C8_quarter_pool_refill_witness :
  (lrng_es_jent_async_enabled sample_drained8 = true
   ∧ 256 = @lrng_get_seed_entropy_osr sample_healthy true
   ∧ lrng_jent_initialized sample_drained8 = true
   ∧ lrng_jent_async_set sample_drained8
       !!! Z.to_nat (@candidate_slot sample_healthy sample_drained8 0)
     = buffer_filled
   ∧ @candidate_slot sample_healthy sample_drained8 0 = 8)
  ∧ trace (@lrng_jent_get_check sample_healthy sample_eb 256 sample_drained8).2
    = trace sample_drained8 ++ [ev_schedule_work].
Proof.
  assert (Hs : lrng_jent_async_set sample_drained8
                 !!! Z.to_nat (@candidate_slot sample_healthy sample_drained8 0)
               = buffer_filled).
  { vm_compute. reflexivity. }
  split; [repeat split; try exact Hs; vm_compute; reflexivity|].
  refine (proj1 (@C8_quarter_pool_refill sample_healthy sample_eb 256
                   sample_drained8 _ eq_refl _ Hs) _).
  - vm_compute. reflexivity.
  - vm_compute. reflexivity.
  - split; vm_compute; [reflexivity|discriminate].
Defined.

Lemma C10_toggle_idempotent_witness :
  ((@kstrtobool sample_healthy (default "1"%string (Some "1"%string))).1 = 0
   ∧ (@kstrtobool sample_healthy (default "1"%string (Some "1"%string))).2
     = lrng_es_jent_async_enabled (sample_filled sample_healthy))
  ∧ @lrng_jent_async_sysfs_set sample_healthy (Some "1"%string)
      (sample_filled sample_healthy)
    = (0, sample_filled sample_healthy).
Proof.
  assert (Hp : (@kstrtobool sample_healthy (default "1"%string (Some "1"%string))).1 = 0
               ∧ (@kstrtobool sample_healthy (default "1"%string (Some "1"%string))).2
                 = lrng_es_jent_async_enabled (sample_filled sample_healthy)).
  { split; vm_compute; reflexivity. }
  split; [exact Hp|].
  exact (proj1 (@C10_toggle_idempotent sample_healthy (Some "1"%string)
                  (sample_filled sample_healthy)) Hp).
Defined.

(** ** Where the code differs from the specification *)

(** C1 fails on the code. The Jitter RNG of [sample_flaky] refuses request
    number 2, which is the one the pass makes for slot 2; the slot was
    empty, and after the pass it is [buffer_filled], not [buffer_empty]. *)
Lemma C1_counterexample :
  lrng_jent_async_set (sample_ready sample_flaky) !! 2%nat = Some buffer_empty
  ∧ jent_calls (@lrng_jent_async_monitor_upto sample_flaky 2 (sample_ready sample_flaky))
    = 2%nat
  ∧ (@jitterentropy_rng sample_flaky 2
       (@lrng_get_seed_entropy_osr sample_flaky true ≫ 3)).1 = -14
  ∧ lrng_jent_async_set (sample_filled sample_flaky) !! 2%nat = Some buffer_filled
  ∧ lrng_jent_async_set (sample_filled sample_flaky) !! 2%nat ≠ Some buffer_empty.
Proof.
  repeat split; try (vm_compute; reflexivity). vm_compute. discriminate.
Qed.

Lemma C1_failed_fetch_ends_filled_witness :
  (length (lrng_jent_async (sample_ready sample_flaky))
   = Z.to_nat (@CONFIG_LRNG_JENT_ENTROPY_BLOCKS sample_flaky)
   ∧ length (lrng_jent_async_set (sample_ready sample_flaky))
     = Z.to_nat (@CONFIG_LRNG_JENT_ENTROPY_BLOCKS sample_flaky)
   ∧ lrng_jent_async_set (sample_ready sample_flaky) !! 2%nat = Some buffer_empty
   ∧ (lrng_jent_initialized (sample_ready sample_flaky) = false
      ∨ (@jitterentropy_rng sample_flaky
           (jent_calls (@lrng_jent_async_monitor_upto sample_flaky 2
                          (sample_ready sample_flaky)))
           (@lrng_get_seed_entropy_osr sample_flaky true ≫ 3)).1 ≠ 0))
  ∧ lrng_jent_async_set (@lrng_jent_async_monitor sample_flaky
                           (sample_ready sample_flaky)) !! 2%nat
    = Some buffer_filled.
Proof.
  assert (Hf : lrng_jent_initialized (sample_ready sample_flaky) = false
               ∨ (@jitterentropy_rng sample_flaky
                    (jent_calls (@lrng_jent_async_monitor_upto sample_flaky 2
                                   (sample_ready sample_flaky)))
                    (@lrng_get_seed_entropy_osr sample_flaky true ≫ 3)).1 ≠ 0).
  { right. vm_compute. discriminate. }
  split; [repeat split; try exact Hf; vm_compute; reflexivity|].
  refine (proj1 (@C1_failed_fetch_ends_filled sample_flaky
                   (sample_ready sample_flaky) 2 _ _ _ Hf));
    vm_compute; reflexivity.
Defined.

(** C2 fails on the code. The pool of the sample is full; after the toggle
    has been switched off, slot 3 still is [buffer_filled]. *)
Lemma C2_counterexample :
  lrng_es_jent_async_enabled (sample_filled sample_healthy) = true
  ∧ (@lrng_jent_async_sysfs_set sample_healthy (Some "0"%string)
       (sample_filled sample_healthy)).1 = 0
  ∧ lrng_es_jent_async_enabled
      (@lrng_jent_async_sysfs_set sample_healthy (Some "0"%string)
         (sample_filled sample_healthy)).2 = false
  ∧ lrng_jent_async_set
      (@lrng_jent_async_sysfs_set sample_healthy (Some "0"%string)
         (sample_filled sample_healthy)).2 !! 3%nat = Some buffer_filled
  ∧ lrng_jent_async_set
      (@lrng_jent_async_sysfs_set sample_healthy (Some "0"%string)
         (sample_filled sample_healthy)).2 !! 3%nat ≠ Some buffer_empty.
Proof.
  repeat split; try (vm_compute; reflexivity). vm_compute. discriminate.
Qed.

Lemma C2_disable_wipes_buffers_witness :
  (@kstrtobool sample_healthy (default "1"%string (Some "0"%string)) = (0, false)
   ∧ lrng_es_jent_async_enabled (sample_filled sample_healthy) = true)
  ∧ lrng_jent_async_set
      (@lrng_jent_async_sysfs_set sample_healthy (Some "0"%string)
         (sample_filled sample_healthy)).2
    = lrng_jent_async_set (sample_filled sample_healthy).
Proof.
  split; [split; vm_compute; reflexivity|].
  refine (proj2 (proj2 (proj2 (proj2
            (@C2_disable_wipes_buffers sample_healthy (Some "0"%string)
               (sample_filled sample_healthy) _ _)))));
    vm_compute; reflexivity.
Defined.

(** C7 fails on the code. No Jitter RNG was found at start-up; a request of
    the standard size takes the pool path, the slot it would be assigned
    (slot 0) is not [buffer_filled], and the call returns without a
    [schedule_work] for the filler: the trace is the one found, not the one
    of the direct path followed by a refill request. *)
Lemma C7_counterexample :
  @lrng_jent_get_check sample_healthy sample_eb 256 sample_uninitialized
  = @lrng_jent_async_get sample_healthy sample_eb 256 sample_uninitialized
  ∧ lrng_jent_async_set sample_uninitialized
      !!! Z.to_nat (@candidate_slot sample_healthy sample_uninitialized 0)
    ≠ buffer_filled
  ∧ trace (@lrng_jent_get_check sample_healthy sample_eb 256
             sample_uninitialized).2
    = trace sample_uninitialized
  ∧ (ev_schedule_work
     ∉ trace (@lrng_jent_get_check sample_healthy sample_eb 256
                sample_uninitialized).2)
  ∧ trace (@lrng_jent_get_check sample_healthy sample_eb 256
             sample_uninitialized).2
    ≠ trace (@lrng_jent_get sample_healthy sample_eb 256
               sample_uninitialized).2 ++ [ev_schedule_work].
Proof.
  split; [vm_compute; reflexivity|].
  split; [vm_compute; discriminate|].
  split; [vm_compute; reflexivity|].
  split; [|vm_compute; discriminate].
  intros Hin. vm_compute in Hin. inversion Hin.
Qed.



(** ** The further properties on the sample configuration *)

(** Eight slots of the sample are empty and 24 are filled; after a pass
    none is empty. *)
Lemma X1_pass_fills_every_empty_slot_witness :
  length (lrng_jent_async_set sample_drained8)
  = Z.to_nat (@CONFIG_LRNG_JENT_ENTROPY_BLOCKS sample_healthy)
  ∧ buffer_empty
    ∉ lrng_jent_async_set (@lrng_jent_async_monitor sample_healthy sample_drained8).
Proof.
  assert (Hl : length (lrng_jent_async_set sample_drained8)
               = Z.to_nat (@CONFIG_LRNG_JENT_ENTROPY_BLOCKS sample_healthy))
    by (vm_compute; reflexivity).
  split; [exact Hl|].
  exact (proj2 (@X1_pass_fills_every_empty_slot sample_healthy sample_drained8 Hl)).
Defined.

Lemma X2_pass_keeps_unread_slots_witness :
  (length (lrng_jent_async_set sample_drained8)
   = Z.to_nat (@CONFIG_LRNG_JENT_ENTROPY_BLOCKS sample_healthy)
   ∧ lrng_jent_async_set sample_drained8 !! 9%nat = Some buffer_filled
   ∧ buffer_filled ≠ buffer_empty)
  ∧ lrng_jent_async (@lrng_jent_async_monitor sample_healthy sample_drained8) !! 9%nat
    = lrng_jent_async sample_drained8 !! 9%nat.
Proof.
  assert (Hl : length (lrng_jent_async_set sample_drained8)
               = Z.to_nat (@CONFIG_LRNG_JENT_ENTROPY_BLOCKS sample_healthy))
    by (vm_compute; reflexivity).
  assert (Hs : lrng_jent_async_set sample_drained8 !! 9%nat = Some buffer_filled)
    by (vm_compute; reflexivity).
  assert (Hne : buffer_filled ≠ buffer_empty) by discriminate.
  split; [auto|].
  exact (proj2 (proj2 (proj2 (proj2
           (@X2_pass_keeps_unread_slots sample_healthy sample_drained8))))
           Hl 9%nat buffer_filled Hs Hne).
Defined.

Lemma X3_pass_on_full_pool_is_noop_witness :
  length (lrng_jent_async_set sample_drained8)
  = Z.to_nat (@CONFIG_LRNG_JENT_ENTROPY_BLOCKS sample_healthy)
  ∧ @lrng_jent_async_monitor sample_healthy
      (@lrng_jent_async_monitor sample_healthy sample_drained8)
    = @lrng_jent_async_monitor sample_healthy sample_drained8.
Proof.
  assert (Hl : length (lrng_jent_async_set sample_drained8)
               = Z.to_nat (@CONFIG_LRNG_JENT_ENTROPY_BLOCKS sample_healthy))
    by (vm_compute; reflexivity).
  split; [exact Hl|].
  exact (proj2 (@X3_pass_on_full_pool_is_noop sample_healthy sample_drained8 Hl)).
Defined.

(** The pass over the sample with eight empty slots makes eight requests. *)
Lemma X4_pass_requests_one_per_empty_slot_witness :
  length (lrng_jent_async_set sample_drained8)
  = Z.to_nat (@CONFIG_LRNG_JENT_ENTROPY_BLOCKS sample_healthy)
  ∧ count_empty (lrng_jent_async_set sample_drained8) = 8%nat
  ∧ jent_calls (@lrng_jent_async_monitor sample_healthy sample_drained8)
    = (jent_calls sample_drained8
       + (if lrng_jent_initialized sample_drained8
          then count_empty (lrng_jent_async_set sample_drained8) else 0))%nat.
Proof.
  assert (Hl : length (lrng_jent_async_set sample_drained8)
               = Z.to_nat (@CONFIG_LRNG_JENT_ENTROPY_BLOCKS sample_healthy))
    by (vm_compute; reflexivity).
  split; [exact Hl|]. split; [vm_compute; reflexivity|].
  exact (@X4_pass_requests_one_per_empty_slot sample_healthy sample_drained8 Hl).
Defined.

Lemma X5_served_fetch_fills_slot_witness :
  (length (lrng_jent_async (sample_ready sample_flaky))
   = Z.to_nat (@CONFIG_LRNG_JENT_ENTROPY_BLOCKS sample_flaky)
   ∧ length (lrng_jent_async_set (sample_ready sample_flaky))
     = Z.to_nat (@CONFIG_LRNG_JENT_ENTROPY_BLOCKS sample_flaky)
   ∧ lrng_jent_async_set (sample_ready sample_flaky) !! 3%nat = Some buffer_empty
   ∧ lrng_jent_initialized (sample_ready sample_flaky) = true
   ∧ (@jitterentropy_rng sample_flaky
        (jent_calls (@lrng_jent_async_monitor_upto sample_flaky 3
                       (sample_ready sample_flaky)))
        (@lrng_get_seed_entropy_osr sample_flaky true ≫ 3)).1 = 0)
  ∧ lrng_jent_async_set
      (@lrng_jent_async_monitor sample_flaky (sample_ready sample_flaky)) !! 3%nat
    = Some buffer_filled.
Proof.
  split; [repeat split; vm_compute; reflexivity|].
  refine (proj1 (@X5_served_fetch_fills_slot sample_flaky
                   (sample_ready sample_flaky) 3 _ _ _ _ _));
    vm_compute; reflexivity.
Defined.

(** A call served from the filled pool of the sample makes no request. *)
Lemma X6_get_check_requests_witness :
  (lrng_jent_initialized (sample_filled sample_healthy) = true
   ∧ lrng_es_jent_async_enabled (sample_filled sample_healthy) = true
   ∧ 256 = @lrng_get_seed_entropy_osr sample_healthy true
   ∧ lrng_jent_async_set (sample_filled sample_healthy)
       !!! Z.to_nat (@candidate_slot sample_healthy (sample_filled sample_healthy) 0)
     = buffer_filled)
  ∧ jent_calls (@lrng_jent_get_check sample_healthy sample_eb 256
                  (sample_filled sample_healthy)).2
    = jent_calls (sample_filled sample_healthy).
Proof.
  assert (Hi : lrng_jent_initialized (sample_filled sample_healthy) = true)
    by (vm_compute; reflexivity).
  assert (Hhit : lrng_es_jent_async_enabled (sample_filled sample_healthy) = true
                 ∧ 256 = @lrng_get_seed_entropy_osr sample_healthy true
                 ∧ lrng_jent_async_set (sample_filled sample_healthy)
                     !!! Z.to_nat (@candidate_slot sample_healthy
                                     (sample_filled sample_healthy) 0)
                   = buffer_filled).
  { repeat split; vm_compute; reflexivity. }
  split; [exact (conj Hi Hhit)|].
  exact (proj1 (proj2 (@X6_get_check_requests sample_healthy sample_eb 256
                         (sample_filled sample_healthy))) Hi Hhit).
Defined.

Lemma X7_full_run_empties_pool_witness :
  (Z.land (@CONFIG_LRNG_JENT_ENTROPY_BLOCKS sample_healthy)
          (@LRNG_JENT_ENTROPY_BLOCKS_MASK sample_healthy) = 0
   ∧ 4 ≤ @CONFIG_LRNG_JENT_ENTROPY_BLOCKS sample_healthy
   ∧ @CONFIG_LRNG_JENT_ENTROPY_BLOCKS sample_healthy < 2 ^ 31
   ∧ lrng_jent_initialized (sample_filled sample_healthy) = true
   ∧ length (lrng_jent_async (sample_filled sample_healthy))
     = Z.to_nat (@CONFIG_LRNG_JENT_ENTROPY_BLOCKS sample_healthy)
   ∧ lrng_jent_async_set (sample_filled sample_healthy)
     = replicate (Z.to_nat (@CONFIG_LRNG_JENT_ENTROPY_BLOCKS sample_healthy))
                 buffer_filled
   ∧ length (replicate 32%nat sample_eb)
     = Z.to_nat (@CONFIG_LRNG_JENT_ENTROPY_BLOCKS sample_healthy))
  ∧ lrng_jent_async_set
      (@pool_calls sample_healthy (replicate 32%nat sample_eb) 256
         (sample_filled sample_healthy)).2
    = replicate (Z.to_nat (@CONFIG_LRNG_JENT_ENTROPY_BLOCKS sample_healthy))
                buffer_empty.
Proof.
  assert (H4 : 4 ≤ @CONFIG_LRNG_JENT_ENTROPY_BLOCKS sample_healthy)
    by (vm_compute; discriminate).
  assert (Hint : @CONFIG_LRNG_JENT_ENTROPY_BLOCKS sample_healthy < 2 ^ 31)
    by (vm_compute; reflexivity).
  split; [repeat split; try assumption; vm_compute; reflexivity|].
  refine (proj1 (@X7_full_run_empties_pool sample_healthy _ H4 Hint 256
                   (replicate 32%nat sample_eb) (sample_filled sample_healthy)
                   _ _ _ _));
    vm_compute; reflexivity.
Defined.

Lemma X8_enable_resets_states_and_schedules_witness :
  (@kstrtobool sample_healthy (default "1"%string None) = (0, true)
   ∧ lrng_es_jent_async_enabled sample_disabled = false
   ∧ length (lrng_jent_async_set sample_disabled)
     = Z.to_nat (@CONFIG_LRNG_JENT_ENTROPY_BLOCKS sample_healthy))
  ∧ lrng_jent_async_set
      (@lrng_jent_async_sysfs_set sample_healthy None sample_disabled).2
    = replicate (Z.to_nat (@CONFIG_LRNG_JENT_ENTROPY_BLOCKS sample_healthy))
                buffer_empty.
Proof.
  split; [repeat split; vm_compute; reflexivity|].
  refine (proj1 (proj2 (proj2
            (@X8_enable_resets_states_and_schedules sample_healthy None
               sample_disabled _ _ _))));
    vm_compute; reflexivity.
Defined.

Lemma X9_off_then_on_gives_clean_pool_witness :
  (@kstrtobool sample_healthy (default "1"%string (Some "n"%string)) = (0, false)
   ∧ @kstrtobool sample_healthy (default "1"%string (Some "y"%string)) = (0, true)
   ∧ lrng_es_jent_async_enabled (sample_filled sample_healthy) = true
   ∧ length (lrng_jent_async_set (sample_filled sample_healthy))
     = Z.to_nat (@CONFIG_LRNG_JENT_ENTROPY_BLOCKS sample_healthy))
  ∧ lrng_jent_async
      (@lrng_jent_async_sysfs_set sample_healthy (Some "y"%string)
         (@lrng_jent_async_sysfs_set sample_healthy (Some "n"%string)
            (sample_filled sample_healthy)).2).2
    = replicate (Z.to_nat (@CONFIG_LRNG_JENT_ENTROPY_BLOCKS sample_healthy))
                (@jent_entropy_es_zero sample_healthy).
Proof.
  split; [repeat split; vm_compute; reflexivity|].
  refine (proj1 (proj2 (proj2
            (@X9_off_then_on_gives_clean_pool sample_healthy
               (Some "n"%string) (Some "y"%string)
               (sample_filled sample_healthy) _ _ _ _))));
    vm_compute; reflexivity.
Defined.

Lemma X10_initialize_outcome_witness :
  (lrng_es_jent_async_enabled (@boot_state sample_healthy) = true
   ∧ length (lrng_jent_async_set (@boot_state sample_healthy))
     = Z.to_nat (@CONFIG_LRNG_JENT_ENTROPY_BLOCKS sample_healthy))
  ∧ lrng_jent_async_set
      (@lrng_jent_initialize sample_healthy rng_handle
         (@boot_state sample_healthy)).2
    = replicate (Z.to_nat (@CONFIG_LRNG_JENT_ENTROPY_BLOCKS sample_healthy))
                buffer_empty.
Proof.
  split; [split; vm_compute; reflexivity|].
  refine (proj1 (proj2 (proj2 (proj2 (proj2 (proj2 (proj2 (proj2
            (@X10_initialize_outcome sample_healthy
               (@boot_state sample_healthy))))))))) _ _);
    vm_compute; reflexivity.
Defined.

Lemma X11_calls_leave_slots_settled_witness :
  settled (@boot_state sample_healthy)
  ∧ settled (@lrng_jent_async_monitor sample_healthy (@boot_state sample_healthy)).
Proof.
  assert (Hs : settled (@boot_state sample_healthy)).
  { intros i s Hi.
    destruct (proj1 (lookup_replicate 32%nat buffer_empty s i) Hi) as [-> _].
    left. reflexivity. }
  split; [exact Hs|].
  exact (proj1 (proj2 (@X11_calls_leave_slots_settled sample_healthy
                         (@boot_state sample_healthy) Hs))).
Defined.

Lemma X12_wipe_invariant_witness :
  @wiped_unless_filled sample_healthy (sample_ready sample_healthy)
  ∧ @wiped_unless_filled sample_healthy (sample_filled sample_healthy).
Proof.
  assert (Hw : @wiped_unless_filled sample_healthy (sample_ready sample_healthy))
    by exact (proj1 (@X12_wipe_invariant sample_healthy) rng_handle).
  split; [exact Hw|].
  exact (proj2 (proj2 (@X12_wipe_invariant sample_healthy)
                  (sample_ready sample_healthy) Hw)).
Defined.

Lemma X13_fill_then_drain_witness :
  (lrng_jent_initialized (sample_ready sample_healthy) = true
   ∧ length (lrng_jent_async (sample_ready sample_healthy))
     = Z.to_nat (@CONFIG_LRNG_JENT_ENTROPY_BLOCKS sample_healthy)
   ∧ length (lrng_jent_async_set (sample_ready sample_healthy))
     = Z.to_nat (@CONFIG_LRNG_JENT_ENTROPY_BLOCKS sample_healthy)
   ∧ lrng_jent_async_set (sample_ready sample_healthy)
       !! Z.to_nat (@candidate_slot sample_healthy (sample_ready sample_healthy) 0)
     = Some buffer_empty
   ∧ (@jitterentropy_rng sample_healthy
        (jent_calls
           (@lrng_jent_async_monitor_upto sample_healthy
              (Z.to_nat (@candidate_slot sample_healthy
                           (sample_ready sample_healthy) 0))
              (sample_ready sample_healthy)))
        (@lrng_get_seed_entropy_osr sample_healthy true ≫ 3)).1 = 0)
  ∧ eb_e_bits
      (@lrng_jent_async_get sample_healthy sample_eb 256
         (@lrng_jent_async_monitor sample_healthy (sample_ready sample_healthy))).1
    = @lrng_jent_entropylevel sample_healthy (sample_ready sample_healthy)
        (@lrng_get_seed_entropy_osr sample_healthy true).
Proof.
  split; [repeat split; vm_compute; reflexivity|].
  refine (f_equal eb_e_bits
            (@X13_fill_then_drain sample_healthy sample_eb 256
               (sample_ready sample_healthy) _ _ _ _ _));
    vm_compute; reflexivity.
Defined.

(** The cursor of the sample at [INT_MAX]: the next slot is slot 0. *)
Lemma X15_slot_index_in_bounds_witness :
  0 < @CONFIG_LRNG_JENT_ENTROPY_BLOCKS sample_healthy
  ∧ 0 ≤ @candidate_slot sample_healthy
          (set_idx (sample_filled sample_healthy) (2 ^ 31 - 1)) 0
      < @CONFIG_LRNG_JENT_ENTROPY_BLOCKS sample_healthy.
Proof.
  assert (HB : 0 < @CONFIG_LRNG_JENT_ENTROPY_BLOCKS sample_healthy)
    by (vm_compute; reflexivity).
  split; [exact HB|].
  exact (proj2 (proj2 (@X15_slot_index_in_bounds sample_healthy
                         (set_idx (sample_filled sample_healthy) (2 ^ 31 - 1))
                         0 HB))).
Defined.
